(** * Krakefaction: rarefaction data from Kraken output

    A shallow embedding of [krakefaction/Krakefaction.py] and the
    properties of its single-pass, multi-rate sub-sampling.

    Modelling conventions.
    - Python [float]s (the rate, the sampling rates [i * rate] and the
      draws of [random.random()]) are exact rationals [Q]; comparisons are
      the exact ones, [int(1 / float(rate))] is truncation of the exact
      quotient.  Every concrete rate used in an example below is a dyadic
      rational on which binary floating point computes the same values.
    - Python [str] is [string]; the files are ASCII text.
    - A [dict] from [str] to [int] is a [gmap string nat]; only its key set
      and size are observed by the program.
    - The list of samples is a [list Sample] read and updated by index.
    - Exceptions are the [Err] results of a small error monad. *)

From Stdlib Require Import ZArith QArith Qround String Ascii List Lia.
From stdpp Require Import base option list gmap strings fin_maps.

#[local] Set Warnings "-clear-no-such-hyp".

Local Open Scope string_scope.
Local Open Scope list_scope.

(** ** Exceptions *)

Inductive InputFile := Untranslated | Translated.

Inductive exn :=
| RuntimeError_input (which : InputFile)
    (* "ERROR: Could not open input file: ..." *)
| RuntimeError_rate (rate : Q)
    (* "ERROR: The rate is not in range (0, 1]: ..." *)
| IndexError
    (* string or list index out of range *)
| NameError.
    (* a local variable read before it was bound *)

Inductive result (A : Type) :=
| Ok (a : A)
| Err (e : exn).
Arguments Ok {A} a.
Arguments Err {A} e.

Definition rbind {A B} (r : result A) (k : A -> result B) : result B :=
  match r with
  | Ok a => k a
  | Err e => Err e
  end.

#[global] Instance result_ret : MRet result := fun _ a => Ok a.
#[global] Instance result_bind : MBind result := fun _ _ k r => rbind r k.

Definition is_ok {A} (r : result A) : bool :=
  match r with Ok _ => true | Err _ => false end.

(** ** Python string primitives used by the program *)

Module Py.

(** [str.isspace] on one ASCII character: TAB, LF, VT, FF, CR,
    FS, GS, RS, US and SPACE. *)
Definition isspace (c : ascii) : bool :=
  let n := nat_of_ascii c in
  ((9 <=? n)%nat && (n <=? 13)%nat) || ((28 <=? n)%nat && (n <=? 32)%nat).

Fixpoint lstrip (s : string) : string :=
  match s with
  | EmptyString => EmptyString
  | String c s' => if isspace c then lstrip s' else s
  end.

Fixpoint rstrip (s : string) : string :=
  match s with
  | EmptyString => EmptyString
  | String c s' =>
      match rstrip s' with
      | EmptyString => if isspace c then EmptyString else String c EmptyString
      | r => String c r
      end
  end.

(** [s.strip()] *)
Definition strip (s : string) : string := rstrip (lstrip s).

(** [s.split()]: maximal runs of non-whitespace characters.
    [cur] is the token being read, reversed. *)
Fixpoint split_go (s : string) (cur : string) : list string :=
  match s with
  | EmptyString =>
      match cur with
      | EmptyString => []
      | _ => [String.rev cur]
      end
  | String c s' =>
      if isspace c then
        match cur with
        | EmptyString => split_go s' EmptyString
        | _ => String.rev cur :: split_go s' EmptyString
        end
      else split_go s' (String c cur)
  end.

Definition split (s : string) : list string := split_go s EmptyString.

(** [s.split(sep)] for a one-character separator: the fields between the
    occurrences of [sep], empty fields kept. *)
Fixpoint split_sep_go (sep : ascii) (s : string) (cur : string) : list string :=
  match s with
  | EmptyString => [String.rev cur]
  | String c s' =>
      if Ascii.eqb c sep then String.rev cur :: split_sep_go sep s' EmptyString
      else split_sep_go sep s' (String c cur)
  end.

Definition split_sep (sep : ascii) (s : string) : list string :=
  split_sep_go sep s EmptyString.

(** [s.startswith(p)] *)
Definition startswith (s p : string) : bool := String.prefix p s.

(** [s[0]] *)
Definition first_char (s : string) : result ascii :=
  match s with
  | EmptyString => Err IndexError
  | String c _ => Ok c
  end.

(** [l[i]] for a non-negative index [i] *)
Definition getitem {A} (l : list A) (i : nat) : result A :=
  match l !! i with
  | Some a => Ok a
  | None => Err IndexError
  end.

(** [l[z]] for any integer index: a negative index counts from the end. *)
Definition getitem_Z {A} (l : list A) (z : Z) : result A :=
  if (0 <=? z)%Z then getitem l (Z.to_nat z)
  else if (0 <=? z + Z.of_nat (length l))%Z
       then getitem l (Z.to_nat (z + Z.of_nat (length l)))
       else Err IndexError.

(** [f.readline()] on the remaining lines of a text file: the next line,
    or the empty string at the end of the file. *)
Definition readline (f : list string) : string * list string :=
  match f with
  | [] => (EmptyString, [])
  | l :: f' => (l, f')
  end.

(** [int(q)]: truncation toward zero. *)
Definition int (q : Q) : Z := Z.quot (Qnum q) (Zpos (Qden q)).

End Py.

(** ** Globals *)

Definition CLASSIFIED : ascii := "C"%char.
Definition DEFAULT_RATE : Q := 5 # 100.

(** ** Sample *)

Definition DOMAIN := "d".
Definition PHYLUM := "p".
Definition CLASS := "c".
Definition ORDER := "o".
Definition FAMILY := "f".
Definition GENERA := "g".
Definition SPECIES := "s".
Definition SUBSPECIES := "s1".
Definition KRAKEN_SEPARATOR := "__".

Record Sample := mkSample {
  rate : Q;
  numberOfReads : nat;
  domainDictionary : gmap string nat;
  phylumDictionary : gmap string nat;
  classDictionary : gmap string nat;
  orderDictionary : gmap string nat;
  familyDictionary : gmap string nat;
  generaDictionary : gmap string nat;
  speciesDictionary : gmap string nat;
  subspeciesDictionary : gmap string nat
}.

(** [Sample.__init__] *)
Definition newSample (r : Q) : Sample :=
  mkSample r 0%nat ∅ ∅ ∅ ∅ ∅ ∅ ∅ ∅.

(** One iteration of the loop of [updateDictionary]. *)
Definition updateRank (label : string) (dictionary : gmap string nat)
    (rank : string) : gmap string nat :=
  if Py.startswith rank (String.append label KRAKEN_SEPARATOR) then
    match dictionary !! rank with
    | Some n => <[rank := (n + 1)%nat]> dictionary
    | None => <[rank := 1%nat]> dictionary
    end
  else dictionary.

(** [Sample.updateDictionary] *)
Definition updateDictionary (dictionary : gmap string nat)
    (rankings : list string) (label : string) : gmap string nat :=
  foldl (updateRank label) dictionary rankings.

(** [Sample.updateDictionaries] *)
Definition updateDictionaries (s : Sample) (rankings : list string) : Sample :=
  mkSample (rate s) (numberOfReads s)
    (updateDictionary (domainDictionary s) rankings DOMAIN)
    (updateDictionary (phylumDictionary s) rankings PHYLUM)
    (updateDictionary (classDictionary s) rankings CLASS)
    (updateDictionary (orderDictionary s) rankings ORDER)
    (updateDictionary (familyDictionary s) rankings FAMILY)
    (updateDictionary (generaDictionary s) rankings GENERA)
    (updateDictionary (speciesDictionary s) rankings SPECIES)
    (updateDictionary (subspeciesDictionary s) rankings SUBSPECIES).

(** ** Loops *)

(** A [for] loop whose body may raise: the state is threaded through the
    iterations and the first exception ends the loop. *)
Fixpoint for_loop {S A} (body : S -> A -> result S) (st : S) (items : list A)
    : result S :=
  match items with
  | [] => Ok st
  | a :: items' => st' ← body st a; for_loop body st' items'
  end.

(** ** generateRarefaction *)

(** The state of the pass over the untranslated file: the samples, the lines
    of the translated file not read yet, the number of values already taken
    from the random source, and the local variable [rankings], which stays
    bound from one iteration to the next ([None] while it is unbound). *)
Record LoopState := mkLoop {
  st_samples : list Sample;
  st_translatedFile : list string;
  st_randomCalls : nat;
  st_rankings : option (list string)
}.

(** [number <= samples[i].rate] *)
Definition included (number : Q) (s : Sample) : bool :=
  Qle_bool number (rate s).

(** [samples[i].numberOfReads += 1] *)
Definition incrementReads (s : Sample) : Sample :=
  mkSample (rate s) (numberOfReads s + 1)
    (domainDictionary s) (phylumDictionary s) (classDictionary s)
    (orderDictionary s) (familyDictionary s) (generaDictionary s)
    (speciesDictionary s) (subspeciesDictionary s).

(** Reading the local variable [rankings]. *)
Definition readRankings (rankings : option (list string)) : result (list string) :=
  match rankings with
  | Some r => Ok r
  | None => Err NameError
  end.

(** The body of [for i in range(0, len(samples))] (lines 342-349). *)
Definition sampleBody (number : Q) (untranslatedLine : string)
    (rankings : option (list string)) (samples : list Sample) (i : nat)
    : result (list Sample) :=
  s ← Py.getitem samples i;
  if included number s then
    let samples1 := <[i := incrementReads s]> samples in
    c ← Py.first_char untranslatedLine;
    if Ascii.eqb c CLASSIFIED then
      r ← readRankings rankings;
      s1 ← Py.getitem samples1 i;
      Ok (<[i := updateDictionaries s1 r]> samples1)
    else Ok samples1
  else Ok samples.

(** The loop over the sampling rates (lines 338-349). *)
Definition sampleLoop (number : Q) (untranslatedLine : string)
    (rankings : option (list string)) (samples : list Sample)
    : result (list Sample) :=
  for_loop (sampleBody number untranslatedLine rankings) samples
    (seq 0 (length samples)).

(** Lines 331-335: the rankings of one line of the translated file. *)
Definition parseTranslation (translatedLine : string) : result (list string) :=
  let tokens := Py.split (Py.strip translatedLine) in
  t0 ← Py.getitem tokens 0;
  let read := Py.strip t0 in
  t1 ← Py.getitem tokens 1;
  let classification := Py.strip t1 in
  Ok (Py.split_sep "|"%char classification).

(** The body of [for untranslatedLine in untranslatedFile] (lines 318-349).
    [draws k] is the value of the [k]-th call of [random.random()]. *)
Definition readBody (draws : nat -> Q) (st : LoopState)
    (untranslatedLine : string) : result LoopState :=
  let number := draws (st_randomCalls st) in
  let calls := S (st_randomCalls st) in
  c ← Py.first_char untranslatedLine;
  if Ascii.eqb c CLASSIFIED then
    let '(translatedLine, rest) := Py.readline (st_translatedFile st) in
    r ← parseTranslation translatedLine;
    let rankings := Some r in
    samples' ← sampleLoop number untranslatedLine rankings (st_samples st);
    Ok (mkLoop samples' rest calls rankings)
  else
    samples' ← sampleLoop number untranslatedLine (st_rankings st) (st_samples st);
    Ok (mkLoop samples' (st_translatedFile st) calls (st_rankings st)).

(** The loop over the untranslated file. *)
Definition readLoop (draws : nat -> Q) (st : LoopState)
    (untranslatedFile : list string) : result LoopState :=
  for_loop (readBody draws) st untranslatedFile.

Definition initialState (translatedFile : list string) (samples : list Sample)
    : LoopState :=
  mkLoop samples translatedFile 0 None.

(** [generateRarefaction]: the two files are the lists of their lines; the
    result is the list of samples as the pass leaves it. *)
Definition generateRarefaction (draws : nat -> Q)
    (untranslatedFile translatedFile : list string) (samples : list Sample)
    : result (list Sample) :=
  st ← readLoop draws (initialState translatedFile samples) untranslatedFile;
  Ok (st_samples st).

(** ** writeResults *)

(** A value written to the output: [str] of a rate or of a count. *)
Inductive Cell :=
| RateCell (q : Q)
| CountCell (n : nat).

(** One line of the output: its label and its comma-separated values. *)
Definition Row : Type := string * list Cell.

(** One block of [writeResults]: the values of all samples but the last,
    each followed by a comma, then the value of [samples[last]]. *)
Definition writeRow (label : string) (cell : Sample -> Cell)
    (samples : list Sample) (last : Z) : result Row :=
  cells ← for_loop (fun acc i => s ← Py.getitem samples i; Ok (acc ++ [cell s]))
            [] (seq 0 (length samples - 1));
  l ← Py.getitem_Z samples last;
  Ok (label, cells ++ [cell l]).

Definition dictCell (d : Sample -> gmap string nat) (s : Sample) : Cell :=
  CountCell (size (d s)).

(** [writeResults]: the ten lines written, in order. *)
Definition writeResults (samples : list Sample) : result (list Row) :=
  let last := (Z.of_nat (length samples) - 1)%Z in
  r0 ← writeRow "rates" (fun s => RateCell (rate s)) samples last;
  r1 ← writeRow "reads" (fun s => CountCell (numberOfReads s)) samples last;
  r2 ← writeRow "domains" (dictCell domainDictionary) samples last;
  r3 ← writeRow "phylums" (dictCell phylumDictionary) samples last;
  r4 ← writeRow "classes" (dictCell classDictionary) samples last;
  r5 ← writeRow "orders" (dictCell orderDictionary) samples last;
  r6 ← writeRow "families" (dictCell familyDictionary) samples last;
  r7 ← writeRow "genera" (dictCell generaDictionary) samples last;
  r8 ← writeRow "species" (dictCell speciesDictionary) samples last;
  r9 ← writeRow "subspecies" (dictCell subspeciesDictionary) samples last;
  Ok [r0; r1; r2; r3; r4; r5; r6; r7; r8; r9].

(** ** run *)

(** [os.path.isfile] then [open]: [None] is a path that is not a file. *)
Definition checkFile (which : InputFile) (f : option (list string))
    : result (list string) :=
  match f with
  | Some lines => Ok lines
  | None => Err (RuntimeError_input which)
  end.

(** Truth value of the [rate] argument: [None] and [0.0] are false. *)
Definition truthy (rate : option Q) : bool :=
  match rate with
  | None => false
  | Some q => negb (Qeq_bool q 0)
  end.

(** Lines 520-527: the default rate and the range check. *)
Definition checkRate (rate : option Q) : result Q :=
  let rate := if truthy rate then default DEFAULT_RATE rate else DEFAULT_RATE in
  if Qle_bool rate 0 || negb (Qle_bool rate 1)
  then Err (RuntimeError_rate rate)
  else Ok rate.

(** Lines 532-538: the samples at [rate], [2 * rate], ... *)
Definition samplingPoints (rate : Q) : Z := Py.int (1 / rate).

Definition initSamples (rate : Q) : list Sample :=
  map (fun i => newSample (inject_Z (Z.of_nat i) * rate))
      (seq 1 (Z.to_nat (samplingPoints rate))).

(** [run]: the input files are given by their lines, the result is the
    content written to the output file. *)
Definition run (draws : nat -> Q) (untranslated translated : option (list string))
    (rate : option Q) : result (list Row) :=
  untranslatedFile ← checkFile Untranslated untranslated;
  translatedFile ← checkFile Translated translated;
  rate ← checkRate rate;
  let samples := initSamples rate in
  samples' ← generateRarefaction draws untranslatedFile translatedFile samples;
  writeResults samples'.

(** ** Vocabulary of the properties

    The definitions of this part are not taken from the program: they are
    the terms of its specification (ranks, read records and their pairing,
    the tokens a sample observes), against which the embedding above is
    compared; [readLoop_spec] relates the two. *)

(** The eight principal ranks, their labels and their dictionaries. *)
Inductive Rank :=
| Domain | Phylum | Class | Order | Family | Genera | Species | Subspecies.

Definition label (k : Rank) : string :=
  match k with
  | Domain => DOMAIN | Phylum => PHYLUM | Class => CLASS | Order => ORDER
  | Family => FAMILY | Genera => GENERA | Species => SPECIES
  | Subspecies => SUBSPECIES
  end.

Definition dictionaryOf (k : Rank) : Sample -> gmap string nat :=
  match k with
  | Domain => domainDictionary | Phylum => phylumDictionary
  | Class => classDictionary | Order => orderDictionary
  | Family => familyDictionary | Genera => generaDictionary
  | Species => speciesDictionary | Subspecies => subspeciesDictionary
  end.

(** A rank token belongs to rank [k]. *)
Definition hasRank (k : Rank) (rank : string) : bool :=
  Py.startswith rank (String.append (label k) KRAKEN_SEPARATOR).

(** A line of the untranslated file is a classified record. *)
Definition isClassified (untranslatedLine : string) : bool :=
  match untranslatedLine with
  | EmptyString => false
  | String c _ => Ascii.eqb c CLASSIFIED
  end.

Definition countClassified (untranslatedFile : list string) : nat :=
  length (filter (fun l => isClassified l = true) untranslatedFile).

(** A read record: the draw of the read and, for a classified read, its
    rank path. *)
Definition ReadRecord : Type := Q * option (list string).

(** What one sample does with one read record. *)
Definition includeRead (rd : ReadRecord) (s : Sample) : Sample :=
  if included (fst rd) s then
    match snd rd with
    | Some r => updateDictionaries (incrementReads s) r
    | None => incrementReads s
    end
  else s.

Definition includeReads (reads : list ReadRecord) (s : Sample) : Sample :=
  foldl (fun s rd => includeRead rd s) s reads.

(** The read records of the two files, paired in lockstep: the [k]-th line
    of the untranslated file gets the draw [draws k], and a classified line
    gets the rankings of the next unread line of the translated file. *)
Fixpoint pairRecords (draws : nat -> Q) (k : nat)
    (translatedFile untranslatedFile : list string) : result (list ReadRecord) :=
  match untranslatedFile with
  | [] => Ok []
  | line :: rest =>
      c ← Py.first_char line;
      if Ascii.eqb c CLASSIFIED then
        r ← parseTranslation (fst (Py.readline translatedFile));
        rds ← pairRecords draws (S k) (snd (Py.readline translatedFile)) rest;
        Ok ((draws k, Some r) :: rds)
      else
        rds ← pairRecords draws (S k) translatedFile rest;
        Ok ((draws k, None) :: rds)
  end.

(** The tokens of rank [k] that the reads included at rate [r] carry, in the
    order of the reads, with their repetitions. *)
Definition observed (k : Rank) (r : Q) (reads : list ReadRecord) : list string :=
  flat_map (fun rd : ReadRecord =>
              if Qle_bool (fst rd) r
              then filter (fun t => hasRank k t = true) (default [] (snd rd))
              else [])
           reads.

(** The number of reads included at rate [r]. *)
Definition includedReads (r : Q) (reads : list ReadRecord) : nat :=
  length (filter (fun rd : ReadRecord => Qle_bool (fst rd) r = true) reads).

(** The value of the local variable [rankings] after the reads [reads]. *)
Definition lastRankings (init : option (list string)) (reads : list ReadRecord)
    : option (list string) :=
  foldl (fun acc rd => match snd rd with Some r => Some r | None => acc end)
        init reads.

(** ** Example inputs *)

Module Example.

Definition nl : string := String "010"%char EmptyString.
Definition tab : string := String "009"%char EmptyString.

(** Three reads: classified, unclassified, classified. *)
Definition untranslated : list string :=
  [String.append "C" nl; String.append "U" nl; String.append "C" nl].

Definition translated : list string :=
  [String.append "r1" (String.append tab (String.append "d__Bacteria|p__Firmicutes" nl));
   String.append "r3" (String.append tab (String.append "d__Bacteria|s__X" nl))].

(** The draws 0.2, 0.6, 0.4, 0.4, ... *)
Definition draws (k : nat) : Q :=
  match k with
  | 0 => 2 # 10
  | 1 => 6 # 10
  | _ => 4 # 10
  end.

(** The same draws for the three reads, other draws afterwards. *)
Definition draws' (k : nat) : Q :=
  match k with
  | 0 => 2 # 10
  | 1 => 6 # 10
  | 2 => 4 # 10
  | _ => 9 # 10
  end.

Definition start : LoopState :=
  initialState translated (initSamples (1 # 2)).

(** The state after the three reads. *)
Definition final : LoopState :=
  match readLoop draws start untranslated with
  | Ok st => st
  | Err _ => start
  end.

(** Three classified reads whose domain tokens are d__A, d__A, d__B. *)
Definition threeReads : list string := [String.append "C" nl; "C"; "C"].

Definition threeTranslations : list string :=
  [String.append "r1" (String.append tab "d__A");
   String.append "r2" (String.append tab "d__A|p__P");
   String.append "r3" (String.append tab "d__B|p__P")].

Definition threeSamples : list Sample :=
  match generateRarefaction draws threeReads threeTranslations (initSamples 1) with
  | Ok l => l
  | Err _ => []
  end.

End Example.

(** ** Further vocabulary *)

(** The number of times the token [t] occurs in [rankings]. *)
Definition occurrences (t : string) (rankings : list string) : nat :=
  count_occ string_dec rankings t.

(** The random source after its first [n] values have been taken. *)
Definition laterDraws (draws : nat -> Q) (n : nat) : nat -> Q :=
  fun k => draws (n + k).

(** The character [c] does not occur in [s]. *)
Fixpoint lacks (c : ascii) (s : string) : bool :=
  match s with
  | EmptyString => true
  | String a s' => negb (Ascii.eqb a c) && lacks c s'
  end.

(** The labels of the ten lines of the output, in order. *)
Definition rowLabels : list string :=
  ["rates"; "reads"; "domains"; "phylums"; "classes"; "orders"; "families";
   "genera"; "species"; "subspecies"].

(** The values of one sample in the ten lines of the output. *)
Definition column (s : Sample) : list Cell :=
  [RateCell (rate s); CountCell (numberOfReads s);
   dictCell domainDictionary s; dictCell phylumDictionary s;
   dictCell classDictionary s; dictCell orderDictionary s;
   dictCell familyDictionary s; dictCell generaDictionary s;
   dictCell speciesDictionary s; dictCell subspeciesDictionary s].

(** The records of the translated file serve the classified lines of the
    untranslated file: no line is empty, and each classified line finds, at
    the position given by the number of classified lines before it, a record
    with at least two tokens. *)
Definition aligned (translatedFile untranslatedFile : list string) : Prop :=
  (forall line, line ∈ untranslatedFile -> line <> EmptyString) /\
  (forall pre line post,
     untranslatedFile = pre ++ line :: post -> isClassified line = true ->
     exists rec, translatedFile !! countClassified pre = Some rec /\
                 2 <= length (Py.split (Py.strip rec))).

(** No character of [s] is whitespace. *)
Fixpoint nospace (s : string) : bool :=
  match s with
  | EmptyString => true
  | String a s' => negb (Py.isspace a) && nospace s'
  end.

(** * Properties *)

(** ** The error monad and the loops *)

Lemma bind_Ok {A B} (r : result A) (k : A -> result B) (b : B) :
  (r ≫= k) = Ok b -> exists a, r = Ok a /\ k a = Ok b.
Proof. destruct r as [a|e]; simpl; [eauto | discriminate]. Qed.

Lemma for_loop_app {S A} (body : S -> A -> result S) (st : S) (l1 l2 : list A) :
  for_loop body st (l1 ++ l2) =
  (for_loop body st l1 ≫= fun st1 => for_loop body st1 l2).
Proof.
  revert st; induction l1 as [|a l1 IH]; intros st; simpl; [reflexivity|].
  destruct (body st a) as [st'|e]; simpl; [apply IH | reflexivity].
Qed.

(** ** The loop over the samples *)

Lemma for_loop_update (body : list Sample -> nat -> result (list Sample))
    (f : Sample -> Sample) :
  (forall (l : list Sample) i s, l !! i = Some s -> body l i = Ok (<[i := f s]> l)) ->
  forall todo done : list Sample,
    for_loop body (done ++ todo) (seq (length done) (length todo))
    = Ok (done ++ map f todo).
Proof.
  intros Hbody. induction todo as [|s todo IH]; intros done; simpl.
  - reflexivity.
  - rewrite (Hbody _ _ s) by apply list_lookup_middle, eq_refl. simpl.
    replace (length done) with (length done + 0) at 1 by lia.
    rewrite insert_app_r. simpl.
    specialize (IH (done ++ [f s])).
    rewrite length_app, Nat.add_1_r in IH. simpl in IH.
    rewrite <- !app_assoc in IH. simpl in IH. exact IH.
Qed.

Lemma sampleBody_classified number line tl r (l : list Sample) i s :
  line = String CLASSIFIED tl -> l !! i = Some s ->
  sampleBody number line (Some r) l i = Ok (<[i := includeRead (number, Some r) s]> l).
Proof.
  intros -> Hi. unfold sampleBody, Py.getitem, includeRead. rewrite Hi. simpl.
  destruct (included number s); simpl.
  - rewrite list_lookup_insert_eq by (eapply lookup_lt_Some; eauto). simpl.
    rewrite list_insert_insert_eq. reflexivity.
  - rewrite list_insert_id by assumption. reflexivity.
Qed.

Lemma sampleBody_unclassified number line rk (l : list Sample) i s :
  isClassified line = false -> line <> EmptyString -> l !! i = Some s ->
  sampleBody number line rk l i = Ok (<[i := includeRead (number, None) s]> l).
Proof.
  intros Hc Hne Hi. unfold sampleBody, Py.getitem, includeRead. rewrite Hi. simpl.
  destruct (included number s); simpl.
  - destruct line as [|c tl]; [congruence|]. simpl in *. rewrite Hc. reflexivity.
  - rewrite list_insert_id by assumption. reflexivity.
Qed.

Lemma sampleLoop_classified number line tl r (l : list Sample) :
  line = String CLASSIFIED tl ->
  sampleLoop number line (Some r) l = Ok (map (includeRead (number, Some r)) l).
Proof.
  intros Hl. unfold sampleLoop.
  apply (for_loop_update _ (includeRead (number, Some r))
           (fun l i s => sampleBody_classified number line tl r l i s Hl) l []).
Qed.

Lemma sampleLoop_unclassified number line rk (l : list Sample) :
  isClassified line = false -> line <> EmptyString ->
  sampleLoop number line rk l = Ok (map (includeRead (number, None)) l).
Proof.
  intros Hc Hne. unfold sampleLoop.
  apply (for_loop_update _ (includeRead (number, None))
           (fun l i s => sampleBody_unclassified number line rk l i s Hc Hne) l []).
Qed.

(** ** One iteration of the pass *)

Lemma line_cases (line : string) :
  line = EmptyString \/
  (exists tl, line = String CLASSIFIED tl) \/
  (isClassified line = false /\ line <> EmptyString).
Proof.
  destruct line as [|c tl]; [by left | right]. simpl.
  destruct (Ascii.eqb c CLASSIFIED) eqn:E.
  - left. apply Ascii.eqb_eq in E. subst. eauto.
  - right. split; [reflexivity | discriminate].
Qed.

Lemma readline_snd (f : list string) : snd (Py.readline f) = drop 1 f.
Proof. destruct f; reflexivity. Qed.

Lemma readBody_empty draws st : readBody draws st EmptyString = Err IndexError.
Proof. reflexivity. Qed.

Lemma readBody_classified draws st tl :
  readBody draws st (String CLASSIFIED tl) =
  (parseTranslation (fst (Py.readline (st_translatedFile st))) ≫= fun r =>
   Ok (mkLoop (map (includeRead (draws (st_randomCalls st), Some r)) (st_samples st))
              (drop 1 (st_translatedFile st))
              (S (st_randomCalls st)) (Some r))).
Proof.
  unfold readBody. simpl. rewrite <- readline_snd.
  destruct (Py.readline (st_translatedFile st)) as [translatedLine rest]. simpl.
  destruct (parseTranslation translatedLine) as [r|e]; simpl; [|reflexivity].
  rewrite (sampleLoop_classified _ _ tl) by reflexivity. reflexivity.
Qed.

Lemma readBody_unclassified draws st line :
  isClassified line = false -> line <> EmptyString ->
  readBody draws st line =
  Ok (mkLoop (map (includeRead (draws (st_randomCalls st), None)) (st_samples st))
             (st_translatedFile st) (S (st_randomCalls st)) (st_rankings st)).
Proof.
  intros Hc Hne. unfold readBody.
  destruct line as [|c tl]; [congruence|]. simpl in Hc. simpl. rewrite Hc.
  rewrite sampleLoop_unclassified by (simpl; done). reflexivity.
Qed.

(** ** The whole pass *)

Lemma countClassified_cons line lines :
  countClassified (line :: lines) =
  (if isClassified line then S (countClassified lines) else countClassified lines).
Proof.
  unfold countClassified. destruct (isClassified line) eqn:E.
  - rewrite filter_cons_True by assumption. reflexivity.
  - rewrite filter_cons_False by congruence. reflexivity.
Qed.

Lemma countClassified_app l1 l2 :
  countClassified (l1 ++ l2) = countClassified l1 + countClassified l2.
Proof. unfold countClassified. rewrite filter_app, length_app. reflexivity. Qed.

(** The pass computes, in one traversal, what the paired read records
    prescribe: both sides raise the same exceptions and give the same state. *)
Lemma readLoop_spec draws lines : forall st,
  readLoop draws st lines =
  (pairRecords draws (st_randomCalls st) (st_translatedFile st) lines ≫= fun reads =>
   Ok (mkLoop (map (includeReads reads) (st_samples st))
              (drop (countClassified lines) (st_translatedFile st))
              (st_randomCalls st + length lines)
              (lastRankings (st_rankings st) reads))).
Proof.
  unfold readLoop.
  induction lines as [|line lines IH]; intros st.
  - simpl. destruct st as [ss tf k rk]. simpl.
    rewrite Nat.add_0_r, drop_0.
    f_equal. f_equal. induction ss; simpl; congruence.
  - rewrite countClassified_cons.
    destruct (line_cases line) as [-> | [[tl ->] | [Hc Hne]]].
    + reflexivity.
    + cbn [for_loop]. rewrite readBody_classified.
      cbn [pairRecords Py.first_char]. simpl.
      replace (Ascii.eqb CLASSIFIED CLASSIFIED) with true by reflexivity.
      destruct (parseTranslation (Py.readline (st_translatedFile st)).1) as [r|e];
        simpl; [|reflexivity].
      rewrite IH. simpl. rewrite readline_snd.
      destruct (pairRecords draws (S (st_randomCalls st))
                  (drop 1 (st_translatedFile st)) lines) as [rds|e];
        simpl; [|reflexivity].
      rewrite map_map, drop_drop. f_equal. f_equal. lia.
    + cbn [for_loop]. rewrite readBody_unclassified by assumption.
      cbn [pairRecords]. simpl. rewrite IH. simpl.
      destruct line as [|c tl]; [congruence|]. simpl in Hc. simpl. rewrite Hc.
      destruct (pairRecords draws (S (st_randomCalls st)) (st_translatedFile st) lines)
        as [rds|e]; simpl; [|reflexivity].
      rewrite map_map. f_equal. f_equal. lia.
Qed.

(** ** The paired read records *)

Lemma parseTranslation_short rec :
  length (Py.split (Py.strip rec)) < 2 -> parseTranslation rec = Err IndexError.
Proof.
  unfold parseTranslation, Py.getitem. intros H.
  destruct (Py.split (Py.strip rec)) as [|t0 [|t1 ts]]; simpl in *;
    [reflexivity | reflexivity | lia].
Qed.

Lemma parseTranslation_Ok rec r :
  parseTranslation rec = Ok r ->
  exists t0 t1 ts, Py.split (Py.strip rec) = t0 :: t1 :: ts /\
                   r = Py.split_sep "|"%char (Py.strip t1).
Proof.
  unfold parseTranslation, Py.getitem.
  destruct (Py.split (Py.strip rec)) as [|t0 [|t1 ts]]; simpl;
    try discriminate.
  intros [= <-]. eauto.
Qed.

Lemma parseTranslation_Err rec e : parseTranslation rec = Err e -> e = IndexError.
Proof.
  unfold parseTranslation, Py.getitem.
  destruct (Py.split (Py.strip rec)) as [|t0 [|t1 ts]]; simpl; congruence.
Qed.

Lemma readline_fst (f : list string) n :
  fst (Py.readline (drop n f)) = default EmptyString (f !! n).
Proof.
  revert f; induction n as [|n IH]; intros [|l f]; simpl; try reflexivity.
  apply IH.
Qed.

Lemma pairRecords_Err draws lines : forall k tf e,
  pairRecords draws k tf lines = Err e -> e = IndexError.
Proof.
  induction lines as [|line lines IH]; intros k tf e; simpl; [discriminate|].
  destruct line as [|c tl]; simpl; [congruence|].
  destruct (Ascii.eqb c CLASSIFIED).
  - destruct (parseTranslation _) as [r|e'] eqn:Hp; simpl.
    + destruct (pairRecords _ _ _ lines) as [rds|e'] eqn:Hr; simpl; [discriminate|].
      intros [= <-]. eapply IH, Hr.
    + intros [= <-]. eapply parseTranslation_Err, Hp.
  - destruct (pairRecords _ _ _ lines) as [rds|e'] eqn:Hr; simpl; [discriminate|].
    intros [= <-]. eapply IH, Hr.
Qed.

Lemma pairRecords_app draws l1 l2 : forall k tf,
  pairRecords draws k tf (l1 ++ l2) =
  (pairRecords draws k tf l1 ≫= fun rds1 =>
   pairRecords draws (k + length l1) (drop (countClassified l1) tf) l2 ≫= fun rds2 =>
   Ok (rds1 ++ rds2)).
Proof.
  induction l1 as [|line l1 IH]; intros k tf.
  - simpl. rewrite Nat.add_0_r.
    change (countClassified []) with 0. rewrite drop_0.
    destruct (pairRecords draws k tf l2); reflexivity.
  - rewrite countClassified_cons. simpl.
    destruct line as [|c tl]; simpl; [reflexivity|].
    destruct (Ascii.eqb c CLASSIFIED).
    + destruct (parseTranslation _) as [r|e]; simpl; [|reflexivity].
      rewrite IH, readline_snd, drop_drop.
      replace (S k + length l1) with (k + S (length l1)) by lia.
      destruct (pairRecords draws (S k) (drop 1 tf) l1) as [rds1|e]; simpl;
        [|reflexivity].
      destruct (pairRecords _ _ _ l2) as [rds2|e]; reflexivity.
    + rewrite IH.
      replace (S k + length l1) with (k + S (length l1)) by lia.
      destruct (pairRecords draws (S k) tf l1) as [rds1|e]; simpl; [|reflexivity].
      destruct (pairRecords _ _ _ l2) as [rds2|e]; reflexivity.
Qed.

Lemma pairRecords_length draws lines : forall k tf reads,
  pairRecords draws k tf lines = Ok reads -> length reads = length lines.
Proof.
  induction lines as [|line lines IH]; intros k tf reads; simpl.
  - intros [= <-]. reflexivity.
  - destruct line as [|c tl]; simpl; [discriminate|].
    destruct (Ascii.eqb c CLASSIFIED).
    + destruct (parseTranslation _); simpl; [|discriminate].
      destruct (pairRecords _ _ _ lines) eqn:Hr; simpl; [|discriminate].
      intros [= <-]. simpl. f_equal. eapply IH, Hr.
    + destruct (pairRecords _ _ _ lines) eqn:Hr; simpl; [|discriminate].
      intros [= <-]. simpl. f_equal. eapply IH, Hr.
Qed.

(** Every read record carries the draw of its own line. *)
Lemma pairRecords_draw draws lines : forall k tf reads i rd,
  pairRecords draws k tf lines = Ok reads -> reads !! i = Some rd ->
  fst rd = draws (k + i).
Proof.
  induction lines as [|line lines IH]; intros k tf reads i rd; simpl.
  - intros [= <-]. discriminate.
  - destruct line as [|c tl]; simpl; [discriminate|].
    destruct (Ascii.eqb c CLASSIFIED).
    + destruct (parseTranslation _); simpl; [|discriminate].
      destruct (pairRecords _ _ _ lines) eqn:Hr; simpl; [|discriminate].
      intros [= <-]. destruct i as [|i]; simpl.
      * intros [= <-]. simpl. f_equal. lia.
      * intros Hi. rewrite (IH _ _ _ _ _ Hr Hi). f_equal. lia.
    + destruct (pairRecords _ _ _ lines) eqn:Hr; simpl; [|discriminate].
      intros [= <-]. destruct i as [|i]; simpl.
      * intros [= <-]. simpl. f_equal. lia.
      * intros Hi. rewrite (IH _ _ _ _ _ Hr Hi). f_equal. lia.
Qed.

(** Pairing succeeds only if each classified line finds its record. *)
Lemma pairRecords_enough draws lines : forall k tf reads,
  pairRecords draws k tf lines = Ok reads -> countClassified lines <= length tf.
Proof.
  induction lines as [|line lines IH]; intros k tf reads.
  - intros _. unfold countClassified. simpl. lia.
  - rewrite countClassified_cons. simpl.
    destruct line as [|c tl]; simpl; [discriminate|].
    destruct (Ascii.eqb c CLASSIFIED).
    + destruct tf as [|rec tf]; [discriminate|]. simpl.
      destruct (parseTranslation rec); simpl; [|discriminate].
      destruct (pairRecords _ _ _ lines) eqn:Hr; simpl; [|discriminate].
      intros _. apply IH in Hr. lia.
    + destruct (pairRecords _ _ _ lines) eqn:Hr; simpl; [|discriminate].
      intros _. eapply IH, Hr.
Qed.

(** Pairing reads only the draws of the lines it is given. *)
Lemma pairRecords_ext d1 d2 lines : forall k tf,
  (forall i, i < length lines -> d1 (k + i) = d2 (k + i)) ->
  pairRecords d1 k tf lines = pairRecords d2 k tf lines.
Proof.
  induction lines as [|line lines IH]; intros k tf Hd; simpl; [reflexivity|].
  assert (H0 : d1 k = d2 k).
  { specialize (Hd 0). rewrite Nat.add_0_r in Hd. apply Hd. simpl. lia. }
  assert (HS : forall tf', pairRecords d1 (S k) tf' lines = pairRecords d2 (S k) tf' lines).
  { intros tf'. apply IH. intros i Hi.
    specialize (Hd (S i)). rewrite Nat.add_succ_r in Hd. apply Hd. simpl. lia. }
  rewrite H0, !HS. reflexivity.
Qed.

(** ** What a sample accumulates *)

Lemma dom_updateRank lbl (d : gmap string nat) rank :
  dom (updateRank lbl d rank) =
  (if Py.startswith rank (String.append lbl KRAKEN_SEPARATOR)
   then {[rank]} ∪ dom d else dom d).
Proof.
  unfold updateRank. destruct (Py.startswith _ _); [|reflexivity].
  destruct (d !! rank); apply dom_insert_L.
Qed.

Lemma dom_updateDictionary lbl rankings : forall d : gmap string nat,
  dom (updateDictionary d rankings lbl) =
  dom d ∪ list_to_set
            (filter (fun t => Py.startswith t (String.append lbl KRAKEN_SEPARATOR) = true)
                    rankings).
Proof.
  unfold updateDictionary.
  induction rankings as [|rank rankings IH]; intros d; simpl.
  - set_solver.
  - rewrite IH, dom_updateRank.
    destruct (Py.startswith rank _) eqn:E.
    + rewrite filter_cons_True by assumption. set_solver.
    + rewrite filter_cons_False by congruence. reflexivity.
Qed.

Lemma dictionaryOf_updateDictionaries k s r :
  dictionaryOf k (updateDictionaries s r) =
  updateDictionary (dictionaryOf k s) r (label k).
Proof. destruct k; reflexivity. Qed.

Lemma dictionaryOf_incrementReads k s :
  dictionaryOf k (incrementReads s) = dictionaryOf k s.
Proof. destruct k; reflexivity. Qed.

Lemma dictionaryOf_newSample k r : dictionaryOf k (newSample r) = ∅.
Proof. destruct k; reflexivity. Qed.

Lemma rate_includeRead rd s : rate (includeRead rd s) = rate s.
Proof.
  unfold includeRead. destruct (included _ _); [|reflexivity].
  destruct (snd rd); reflexivity.
Qed.

Lemma rate_includeReads reads : forall s, rate (includeReads reads s) = rate s.
Proof.
  unfold includeReads. induction reads as [|rd reads IH]; intros s; simpl.
  - reflexivity.
  - rewrite IH. apply rate_includeRead.
Qed.

Lemma numberOfReads_includeRead rd s :
  numberOfReads (includeRead rd s) =
  (if included (fst rd) s then numberOfReads s + 1 else numberOfReads s).
Proof.
  unfold includeRead. destruct (included _ _); [|reflexivity].
  destruct (snd rd); reflexivity.
Qed.

Lemma numberOfReads_includeReads reads : forall s,
  numberOfReads (includeReads reads s) =
  numberOfReads s + includedReads (rate s) reads.
Proof.
  unfold includeReads, includedReads.
  induction reads as [|rd reads IH]; intros s; simpl.
  - lia.
  - rewrite IH, rate_includeRead, numberOfReads_includeRead.
    unfold included. destruct (Qle_bool rd.1 (rate s)) eqn:E.
    + rewrite filter_cons_True by assumption. simpl. lia.
    + rewrite filter_cons_False by congruence. reflexivity.
Qed.

Lemma dom_includeRead k rd s :
  dom (dictionaryOf k (includeRead rd s)) =
  dom (dictionaryOf k s) ∪ list_to_set (observed k (rate s) [rd]).
Proof.
  unfold includeRead, observed, included. simpl. rewrite app_nil_r.
  destruct (Qle_bool rd.1 (rate s)); [|set_solver].
  destruct (snd rd) as [r|]; simpl.
  - rewrite dictionaryOf_updateDictionaries, dom_updateDictionary,
      dictionaryOf_incrementReads. reflexivity.
  - rewrite dictionaryOf_incrementReads. set_solver.
Qed.

Lemma observed_cons k r rd reads :
  observed k r (rd :: reads) = observed k r [rd] ++ observed k r reads.
Proof. unfold observed. simpl. rewrite app_nil_r. reflexivity. Qed.

(** The keys of a dictionary are its former keys and the tokens of its rank
    carried by the reads the sample includes. *)
Lemma dom_includeReads k reads : forall s,
  dom (dictionaryOf k (includeReads reads s)) =
  dom (dictionaryOf k s) ∪ list_to_set (observed k (rate s) reads).
Proof.
  induction reads as [|rd reads IH]; intros s.
  - simpl. set_solver.
  - change (includeReads (rd :: reads) s)
      with (includeReads reads (includeRead rd s)).
    rewrite IH, rate_includeRead, dom_includeRead, (observed_cons k _ rd reads).
    rewrite list_to_set_app_L. set_solver.
Qed.

Lemma size_list_to_set_remove_dups (l : list string) :
  size (list_to_set l : gset string) = length (remove_dups l).
Proof.
  rewrite <- (size_list_to_set (C := gset string) (remove_dups l))
    by apply NoDup_remove_dups.
  f_equal. apply set_eq. intros x.
  rewrite !elem_of_list_to_set, elem_of_remove_dups. reflexivity.
Qed.

(** ** The sample set *)


Lemma initSamples_fresh rate0 :
  initSamples rate0 = map newSample (map rate (initSamples rate0)).
Proof.
  unfold initSamples. rewrite !map_map. reflexivity.
Qed.

(** The pass from fresh counters, in terms of the paired read records. *)
Lemma generateRarefaction_spec draws u t samples :
  generateRarefaction draws u t samples =
  (pairRecords draws 0 t u ≫= fun reads => Ok (map (includeReads reads) samples)).
Proof.
  unfold generateRarefaction. rewrite readLoop_spec. simpl.
  destruct (pairRecords draws 0 t u); reflexivity.
Qed.

(** A successful iteration, in full: every sample treats the read record of
    the line, a classified line takes one record of the translated file and
    an unclassified line takes none, and one draw is used. *)
Lemma readBody_Ok draws st line st' :
  readBody draws st line = Ok st' ->
  exists rk,
    st_samples st' = map (includeRead (draws (st_randomCalls st), rk)) (st_samples st) /\
    st_randomCalls st' = S (st_randomCalls st) /\
    (if isClassified line
     then exists rec r, st_translatedFile st = rec :: st_translatedFile st' /\
                        parseTranslation rec = Ok r /\ rk = Some r
     else st_translatedFile st' = st_translatedFile st /\ rk = None).
Proof.
  destruct (line_cases line) as [-> | [[tl ->] | [Hc Hne]]].
  - discriminate.
  - rewrite readBody_classified. simpl.
    destruct (st_translatedFile st) as [|rec tf]; [discriminate|]. simpl.
    destruct (parseTranslation rec) as [r|e] eqn:Hp; simpl; [|discriminate].
    intros [= <-]. simpl. rewrite drop_0. exists (Some r). eauto 10.
  - rewrite readBody_unclassified by assumption. intros [= <-].
    rewrite Hc. exists None. simpl. eauto.
Qed.

(** ** C1: nesting monotonicity *)

Lemma included_mono number s1 s2 :
  (rate s1 < rate s2)%Q -> included number s1 = true -> included number s2 = true.
Proof.
  unfold included. rewrite !Qle_bool_iff. intros Hlt Hle.
  eapply Qle_trans; [exact Hle | apply Qlt_le_weak, Hlt].
Qed.

(** C1. In one iteration of [generateRarefaction] the draw of the read is
    compared against the rate of every sample: for two samples with rates
    [r1 < r2], if the read is included at [r1] (draw [<= r1]) then it is
    included at [r2], and both samples count the read. *)
Theorem nesting_monotonicity draws st line st' i j (si sj si' sj' : Sample) :
  readBody draws st line = Ok st' ->
  st_samples st !! i = Some si -> st_samples st !! j = Some sj ->
  st_samples st' !! i = Some si' -> st_samples st' !! j = Some sj' ->
  (rate si < rate sj)%Q ->
  included (draws (st_randomCalls st)) si = true ->
  included (draws (st_randomCalls st)) sj = true /\
  numberOfReads si' = numberOfReads si + 1 /\
  numberOfReads sj' = numberOfReads sj + 1.
Proof.
  intros Hstep Hi Hj Hi' Hj' Hlt Hinc.
  pose proof (included_mono _ _ _ Hlt Hinc) as Hinc'.
  destruct (readBody_Ok _ _ _ _ Hstep) as (rk & Hs & _ & _).
  rewrite Hs in Hi', Hj'.
  change (map ?f ?l) with (f <$> l) in Hi', Hj'.
  rewrite list_lookup_fmap, Hi in Hi'. rewrite list_lookup_fmap, Hj in Hj'.
  simpl in Hi', Hj'. injection Hi' as <-. injection Hj' as <-.
  rewrite !numberOfReads_includeRead. simpl. rewrite Hinc, Hinc'. auto.
Qed.

Lemma nesting_monotonicity_witness :
  included (2 # 10) (newSample (2 * (1 # 2))) = true /\
  numberOfReads (includeRead (2 # 10, None) (newSample (1 * (1 # 2)))) = 0 + 1 /\
  numberOfReads (includeRead (2 # 10, None) (newSample (2 * (1 # 2)))) = 0 + 1.
Proof.
  apply (nesting_monotonicity Example.draws Example.start (String.append "U" Example.nl)
           (mkLoop (map (includeRead (2 # 10, None)) (initSamples (1 # 2)))
                   Example.translated 1 None)
           0 1 (newSample (1 * (1 # 2))) (newSample (2 * (1 # 2))));
    reflexivity.
Defined.

(** Over the whole pass the samples are nested: a sample with a higher rate
    has counted at least as many reads and knows every token that a sample
    with a lower rate knows. *)
Lemma observed_mono k r1 r2 reads :
  (r1 < r2)%Q -> observed k r1 reads ⊆ observed k r2 reads.
Proof.
  intros Hlt x. unfold observed. rewrite !list_elem_of_In, !in_flat_map.
  intros (rd & Hin & Hx). exists rd. split; [assumption|].
  destruct (Qle_bool rd.1 r1) eqn:E; [|inversion Hx].
  apply Qle_bool_iff in E.
  assert (E2 : Qle_bool rd.1 r2 = true).
  { apply Qle_bool_iff. eapply Qle_trans; [exact E | apply Qlt_le_weak, Hlt]. }
  rewrite E2. exact Hx.
Qed.

Lemma includedReads_mono r1 r2 reads :
  (r1 < r2)%Q -> includedReads r1 reads <= includedReads r2 reads.
Proof.
  intros Hlt. unfold includedReads.
  induction reads as [|rd reads IH]; simpl; [lia|].
  destruct (Qle_bool rd.1 r1) eqn:E.
  - assert (E2 : Qle_bool rd.1 r2 = true).
    { apply Qle_bool_iff in E. apply Qle_bool_iff.
      eapply Qle_trans; [exact E | apply Qlt_le_weak, Hlt]. }
    rewrite !filter_cons_True by assumption. simpl. lia.
  - rewrite (filter_cons_False _ rd reads) by congruence.
    destruct (Qle_bool rd.1 r2) eqn:E2.
    + rewrite filter_cons_True by assumption. simpl. lia.
    + rewrite filter_cons_False by congruence. lia.
Qed.

(** After a pass from fresh samples, of two samples the one with the higher
    rate has counted at least as many reads and holds every key of the
    other, in each of the eight dictionaries. *)
Lemma nested_samples draws u t rates samples' i j (si sj : Sample) k :
  generateRarefaction draws u t (map newSample rates) = Ok samples' ->
  samples' !! i = Some si -> samples' !! j = Some sj ->
  (rate si < rate sj)%Q ->
  numberOfReads si <= numberOfReads sj /\
  dom (dictionaryOf k si) ⊆ dom (dictionaryOf k sj).
Proof.
  rewrite generateRarefaction_spec.
  intros H Hi Hj Hlt. apply bind_Ok in H as (reads & _ & [= <-]).
  change (map ?f ?l) with (f <$> l) in Hi, Hj.
  rewrite !list_lookup_fmap in Hi, Hj.
  destruct (rates !! i) as [ri|]; [|discriminate].
  destruct (rates !! j) as [rj|]; [|discriminate].
  simpl in Hi, Hj. injection Hi as <-. injection Hj as <-.
  rewrite !rate_includeReads in Hlt. simpl in Hlt.
  rewrite !numberOfReads_includeReads, !dom_includeReads. simpl. split.
  - apply (includedReads_mono _ _ reads Hlt).
  - rewrite !dictionaryOf_newSample, dom_empty_L.
    pose proof (observed_mono k _ _ reads Hlt). set_solver.
Qed.

(** ** C9: unclassified reads are counted *)

(** C9. For a line of the untranslated file whose first character is not
    "C", the iteration succeeds and every sample whose rate is at least the
    draw of the read has its number of reads incremented by exactly one,
    while its rate and its eight dictionaries are unchanged; the other
    samples are unchanged. *)
Theorem unclassified_reads_counted draws st line c :
  Py.first_char line = Ok c -> c <> CLASSIFIED ->
  exists st',
    readBody draws st line = Ok st' /\
    length (st_samples st') = length (st_samples st) /\
    forall i s, st_samples st !! i = Some s ->
      exists s',
        st_samples st' !! i = Some s' /\
        rate s' = rate s /\
        (forall k, dictionaryOf k s' = dictionaryOf k s) /\
        if Qle_bool (draws (st_randomCalls st)) (rate s)
        then numberOfReads s' = numberOfReads s + 1
        else s' = s.
Proof.
  intros Hc Hne.
  assert (Hu : isClassified line = false /\ line <> EmptyString).
  { destruct line as [|c' tl]; [discriminate|]. simpl in *.
    injection Hc as ->. split; [|discriminate].
    destruct (Ascii.eqb c CLASSIFIED) eqn:E; [|reflexivity].
    apply Ascii.eqb_eq in E. contradiction. }
  destruct Hu as [Hu Hnil].
  eexists. split; [apply readBody_unclassified; assumption|]. simpl.
  split; [apply length_map|].
  intros i s Hi. eexists. split.
  { change (map ?f ?l) with (f <$> l). rewrite list_lookup_fmap, Hi. reflexivity. }
  unfold includeRead, included. simpl.
  destruct (Qle_bool _ (rate s)); simpl.
  - repeat split. intros k. apply dictionaryOf_incrementReads.
  - auto.
Qed.

Lemma unclassified_reads_counted_witness :
  exists st',
    readBody Example.draws Example.start (String.append "U" Example.nl) = Ok st' /\
    length (st_samples st') = length (st_samples Example.start) /\
    forall i s, st_samples Example.start !! i = Some s ->
      exists s',
        st_samples st' !! i = Some s' /\
        rate s' = rate s /\
        (forall k, dictionaryOf k s' = dictionaryOf k s) /\
        if Qle_bool (Example.draws (st_randomCalls Example.start)) (rate s)
        then numberOfReads s' = numberOfReads s + 1
        else s' = s.
Proof.
  apply (unclassified_reads_counted Example.draws Example.start
           (String.append "U" Example.nl) "U"%char).
  - reflexivity.
  - discriminate.
Defined.

(** ** C7: the two files are read in lockstep *)

Lemma readLoop_Ok draws st lines st' :
  readLoop draws st lines = Ok st' ->
  exists reads,
    pairRecords draws (st_randomCalls st) (st_translatedFile st) lines = Ok reads /\
    st_samples st' = map (includeReads reads) (st_samples st) /\
    st_translatedFile st' = drop (countClassified lines) (st_translatedFile st) /\
    st_randomCalls st' = st_randomCalls st + length lines /\
    countClassified lines <= length (st_translatedFile st).
Proof.
  rewrite readLoop_spec. intros H.
  apply bind_Ok in H as (reads & Hp & [= <-]). simpl.
  exists reads. repeat split; try assumption.
  eapply pairRecords_enough, Hp.
Qed.

Lemma readLoop_split draws st l1 l2 st' :
  readLoop draws st (l1 ++ l2) = Ok st' ->
  exists st1, readLoop draws st l1 = Ok st1 /\ readLoop draws st1 l2 = Ok st'.
Proof.
  unfold readLoop. rewrite for_loop_app. intros H.
  apply bind_Ok in H as (st1 & H1 & H2). eauto.
Qed.

(** C7. At every step of a pass that completes, the translated file has been
    advanced by exactly one record per classified line read so far (the
    records exist: the file is not read past its end), the step on a
    classified line takes exactly the next record, and the step on an
    unclassified line leaves the translated file where it is. *)
Theorem lockstep_invariant draws st pre line post st' :
  readLoop draws st (pre ++ line :: post) = Ok st' ->
  exists st1 st2,
    readLoop draws st pre = Ok st1 /\
    readBody draws st1 line = Ok st2 /\
    readLoop draws st2 post = Ok st' /\
    countClassified pre <= length (st_translatedFile st) /\
    st_translatedFile st1 = drop (countClassified pre) (st_translatedFile st) /\
    (if isClassified line
     then exists rec, st_translatedFile st1 = rec :: st_translatedFile st2
     else st_translatedFile st2 = st_translatedFile st1) /\
    countClassified (pre ++ line :: post) <= length (st_translatedFile st) /\
    st_translatedFile st' =
      drop (countClassified (pre ++ line :: post)) (st_translatedFile st).
Proof.
  intros H.
  destruct (readLoop_Ok _ _ _ _ H) as (_ & _ & _ & Htf' & _ & Hle').
  apply readLoop_split in H as (st1 & H1 & H2).
  unfold readLoop in H2. simpl in H2.
  apply bind_Ok in H2 as (st2 & Hb & H2).
  destruct (readLoop_Ok _ _ _ _ H1) as (_ & _ & _ & Htf1 & _ & Hle1).
  destruct (readBody_Ok _ _ _ _ Hb) as (rk & _ & _ & Hstep).
  exists st1, st2. repeat split; try assumption.
  destruct (isClassified line).
  - destruct Hstep as (rec & r & Hrec & _). eauto.
  - apply Hstep.
Qed.

Lemma lockstep_invariant_witness :
  exists st1 st2,
    readLoop Example.draws Example.start [String.append "C" Example.nl] = Ok st1 /\
    readBody Example.draws st1 (String.append "U" Example.nl) = Ok st2 /\
    readLoop Example.draws st2 [String.append "C" Example.nl] = Ok Example.final /\
    countClassified [String.append "C" Example.nl]
      <= length (st_translatedFile Example.start) /\
    st_translatedFile st1 =
      drop (countClassified [String.append "C" Example.nl])
           (st_translatedFile Example.start) /\
    (if isClassified (String.append "U" Example.nl)
     then exists rec, st_translatedFile st1 = rec :: st_translatedFile st2
     else st_translatedFile st2 = st_translatedFile st1) /\
    countClassified Example.untranslated <= length (st_translatedFile Example.start) /\
    st_translatedFile Example.final =
      drop (countClassified Example.untranslated) (st_translatedFile Example.start).
Proof.
  apply (lockstep_invariant Example.draws Example.start
           [String.append "C" Example.nl] (String.append "U" Example.nl)
           [String.append "C" Example.nl] Example.final).
  reflexivity.
Defined.

(** ** C4: one draw per read *)

(** C4. The pass takes exactly one value from the random source per line of
    the untranslated file, whatever the number of samples: after any prefix
    of the lines the number of values taken is the number of lines read.
    Hence two random sources that give the same sequence of draws for the
    lines of the file give the same result: the same exception, or the same
    list of samples with the same numbers of reads and dictionaries. *)
Theorem single_draw_per_read d1 d2 u t samples :
  (forall k, k < length u -> d1 k = d2 k) ->
  generateRarefaction d1 u t samples = generateRarefaction d2 u t samples /\
  (forall pre post st1,
     u = pre ++ post ->
     readLoop d1 (initialState t samples) pre = Ok st1 ->
     st_randomCalls st1 = length pre).
Proof.
  intros Hd. split.
  - rewrite !generateRarefaction_spec.
    rewrite (pairRecords_ext d1 d2 u 0 t); [reflexivity|].
    intros i Hi. apply Hd, Hi.
  - intros pre post st1 _ H1.
    destruct (readLoop_Ok _ _ _ _ H1) as (_ & _ & _ & _ & Hc & _).
    exact Hc.
Qed.

Lemma single_draw_per_read_witness :
  generateRarefaction Example.draws Example.untranslated Example.translated
    (initSamples (1 # 2)) =
  generateRarefaction Example.draws' Example.untranslated Example.translated
    (initSamples (1 # 2)).
Proof.
  refine (proj1 (single_draw_per_read Example.draws Example.draws'
                   Example.untranslated Example.translated (initSamples (1 # 2)) _)).
  intros [|[|[|k]]] Hk; try reflexivity. simpl in Hk. lia.
Defined.

(** ** C5: desynchronised or malformed translated file *)

(** C5. If a classified line of the untranslated file finds the translated
    file exhausted (no record is left for it), or finds a record with fewer
    than two whitespace-separated tokens (the rank path is missing), then
    [generateRarefaction] raises [IndexError] and returns no samples. *)
Theorem desync_raises draws u t samples pre line post :
  u = pre ++ line :: post ->
  isClassified line = true ->
  match t !! countClassified pre with
  | None => True
  | Some rec => length (Py.split (Py.strip rec)) < 2
  end ->
  generateRarefaction draws u t samples = Err IndexError.
Proof.
  intros -> Hc Hrec.
  destruct (generateRarefaction draws (pre ++ line :: post) t samples)
    as [samples'|e] eqn:E.
  - exfalso. rewrite generateRarefaction_spec in E.
    apply bind_Ok in E as (reads & Hp & _).
    rewrite pairRecords_app in Hp.
    apply bind_Ok in Hp as (rds1 & _ & Hp).
    apply bind_Ok in Hp as (rds2 & Hp & _).
    destruct line as [|c tl]; [discriminate|]. simpl in Hc, Hp. rewrite Hc in Hp.
    apply bind_Ok in Hp as (r & Hr & _).
    rewrite readline_fst in Hr.
    destruct (t !! countClassified pre) as [rec|]; simpl in Hr.
    + rewrite parseTranslation_short in Hr by assumption. discriminate.
    + discriminate.
  - f_equal. rewrite generateRarefaction_spec in E.
    destruct (pairRecords draws 0 t (pre ++ line :: post)) as [reads|e'] eqn:Hp;
      simpl in E; [discriminate|].
    injection E as <-. eapply pairRecords_Err, Hp.
Qed.

Lemma desync_raises_witness :
  generateRarefaction Example.draws Example.untranslated
    [String.append "r1" (String.append Example.tab "d__Bacteria"); "r3"]
    (initSamples (1 # 2)) = Err IndexError.
Proof.
  apply (desync_raises Example.draws Example.untranslated
           [String.append "r1" (String.append Example.tab "d__Bacteria"); "r3"]
           (initSamples (1 # 2))
           [String.append "C" Example.nl; String.append "U" Example.nl]
           (String.append "C" Example.nl) []).
  - reflexivity.
  - reflexivity.
  - vm_compute. lia.
Defined.

(** Fewer records in the translated file than classified lines in the
    untranslated file: the pass raises. *)
Lemma fewer_translations_raise draws u t samples :
  length t < countClassified u ->
  generateRarefaction draws u t samples = Err IndexError.
Proof.
  intros Hlt. rewrite generateRarefaction_spec.
  destruct (pairRecords draws 0 t u) as [reads|e] eqn:Hp; simpl.
  - apply pairRecords_enough in Hp. lia.
  - f_equal. eapply pairRecords_Err, Hp.
Qed.

(** ** C6: distinct counts *)

Lemma lookup_fresh_samples reads rates (samples' : list Sample) i s' :
  map (includeReads reads) (map newSample rates) = samples' ->
  samples' !! i = Some s' ->
  s' = includeReads reads (newSample (rate s')).
Proof.
  intros <- Hi. change (map ?f ?l) with (f <$> l) in Hi.
  rewrite !list_lookup_fmap in Hi.
  destruct (rates !! i) as [r|]; [|discriminate]. simpl in Hi.
  injection Hi as <-. rewrite rate_includeReads. reflexivity.
Qed.

(** C6. After a pass that starts from fresh samples, for every sample and
    every rank, the keys of the dictionary of that rank are exactly the
    tokens of that rank carried by the reads included in the sample, and the
    count written by [writeResults] is the number of distinct such tokens,
    however often each was observed. *)
Theorem distinct_count_correct draws u t rates samples' i (s' : Sample) k :
  generateRarefaction draws u t (map newSample rates) = Ok samples' ->
  samples' !! i = Some s' ->
  exists reads,
    pairRecords draws 0 t u = Ok reads /\
    dom (dictionaryOf k s') = list_to_set (observed k (rate s') reads) /\
    dictCell (dictionaryOf k) s' =
      CountCell (length (remove_dups (observed k (rate s') reads))).
Proof.
  rewrite generateRarefaction_spec. intros H Hi.
  apply bind_Ok in H as (reads & Hp & [= H]).
  exists reads. split; [assumption|].
  pose proof (lookup_fresh_samples _ _ _ _ _ H Hi) as Hs'.
  assert (Hdom : dom (dictionaryOf k s') = list_to_set (observed k (rate s') reads)).
  { rewrite Hs' at 1. rewrite dom_includeReads, dictionaryOf_newSample, dom_empty_L.
    simpl. set_solver. }
  split; [assumption|].
  unfold dictCell. f_equal.
  rewrite <- size_dom, Hdom. apply size_list_to_set_remove_dups.
Qed.

Lemma distinct_count_correct_witness :
  exists reads,
    pairRecords Example.draws 0 Example.threeTranslations Example.threeReads = Ok reads /\
    dom (dictionaryOf Domain (default (newSample 0) (Example.threeSamples !! 0))) =
      list_to_set (observed Domain
                     (rate (default (newSample 0) (Example.threeSamples !! 0))) reads) /\
    dictCell (dictionaryOf Domain) (default (newSample 0) (Example.threeSamples !! 0)) =
      CountCell (length (remove_dups
        (observed Domain
           (rate (default (newSample 0) (Example.threeSamples !! 0))) reads))).
Proof.
  apply (distinct_count_correct Example.draws Example.threeReads
           Example.threeTranslations (map rate (initSamples 1))
           Example.threeSamples 0).
  - reflexivity.
  - reflexivity.
Defined.

(** The example of the claim: domain tokens d__A, d__A, d__B give 2. *)
Example distinct_count_example :
  forall reads,
    pairRecords Example.draws 0 Example.threeTranslations Example.threeReads = Ok reads ->
    observed Domain 1 reads = ["d__A"; "d__A"; "d__B"] /\
    writeResults Example.threeSamples ≫= (fun rows => Py.getitem rows 2)
    = Ok ("domains", [CountCell 2]).
Proof.
  intros reads H. vm_compute in H. injection H as <-.
  split; vm_compute; reflexivity.
Qed.

(** ** C8: the sample at rate 1.0 *)

Lemma includedReads_all r (reads : list ReadRecord) :
  (forall rd, rd ∈ reads -> Qle_bool (fst rd) r = true) ->
  includedReads r reads = length reads.
Proof.
  unfold includedReads. induction reads as [|rd reads IH]; intros H; simpl.
  - reflexivity.
  - rewrite filter_cons_True by (apply H; left). simpl. f_equal.
    apply IH. intros rd' Hin. apply H. right. exact Hin.
Qed.

Lemma samplingPoints_one : samplingPoints 1 = 1%Z.
Proof. reflexivity. Qed.

(** C8. When every draw lies in [0,1), a sample whose rate is 1.0 includes
    every read: after the pass its number of reads is the number of lines of
    the untranslated file.  With the configured rate 1.0 the range check
    passes and the sample set consists of exactly one sample, of rate 1.0. *)
Theorem read_count_at_rate_one draws u t rate0 samples' i (s' : Sample) :
  (forall k, (0 <= draws k)%Q /\ (draws k < 1)%Q) ->
  generateRarefaction draws u t (initSamples rate0) = Ok samples' ->
  samples' !! i = Some s' ->
  (rate s' == 1)%Q ->
  numberOfReads s' = length u /\
  checkRate (Some 1%Q) = Ok 1%Q /\
  length (initSamples 1) = 1 /\
  Forall (fun s => (rate s == 1)%Q) (initSamples 1).
Proof.
  intros Hd H Hi Hr. split.
  - rewrite initSamples_fresh, generateRarefaction_spec in H.
    apply bind_Ok in H as (reads & Hp & [= H]).
    rewrite (lookup_fresh_samples _ _ _ _ _ H Hi).
    rewrite numberOfReads_includeReads. simpl.
    rewrite includedReads_all; [eapply pairRecords_length, Hp|].
    intros rd Hin. apply list_elem_of_lookup in Hin as [j Hj].
    rewrite (pairRecords_draw _ _ _ _ _ _ _ Hp Hj).
    apply Qle_bool_iff. rewrite Hr. apply Qlt_le_weak, Hd.
  - repeat split. repeat constructor.
Qed.

Lemma read_count_at_rate_one_witness :
  numberOfReads (default (newSample 0) (Example.threeSamples !! 0))
    = length Example.threeReads /\
  checkRate (Some 1%Q) = Ok 1%Q /\
  length (initSamples 1) = 1 /\
  Forall (fun s => (rate s == 1)%Q) (initSamples 1).
Proof.
  apply (read_count_at_rate_one Example.draws Example.threeReads
           Example.threeTranslations 1 Example.threeSamples 0).
  - intros [|[|k]]; split; vm_compute; congruence.
  - reflexivity.
  - reflexivity.
  - reflexivity.
Defined.

(** ** The rates of the sample set *)






Lemma lookup_initSamples rate0 i s :
  initSamples rate0 !! i = Some s <->
  i < Z.to_nat (samplingPoints rate0) /\
  s = newSample (inject_Z (Z.of_nat (S i)) * rate0).
Proof.
  unfold initSamples. change (map ?f ?l) with (f <$> l).
  rewrite list_lookup_fmap. split.
  - intros H. destruct (seq 1 _ !! i) as [j|] eqn:Hj; [|discriminate].
    apply lookup_seq in Hj as [-> Hlt]. simpl in H. injection H as <-. auto.
  - intros [Hlt ->]. rewrite lookup_seq_lt by assumption. reflexivity.
Qed.




(** ** C3: the sample set *)




(** ** writeResults *)

Lemma collect_cells (cell : Sample -> Cell) (samples : list Sample) :
  forall (todo done rest : list Sample) (acc : list Cell),
    samples = done ++ todo ++ rest ->
    for_loop (fun acc i => Py.getitem samples i ≫= fun s => Ok (acc ++ [cell s]))
             acc (seq (length done) (length todo))
    = Ok (acc ++ map cell todo).
Proof.
  induction todo as [|s todo IH]; intros done rest acc Hs.
  - simpl. rewrite app_nil_r. reflexivity.
  - assert (Hget : Py.getitem samples (length done) = Ok s).
    { unfold Py.getitem. rewrite Hs. simpl.
      rewrite list_lookup_middle by reflexivity. reflexivity. }
    cbn [for_loop seq length]. rewrite Hget. simpl.
    specialize (IH (done ++ [s]) rest (acc ++ [cell s])).
    rewrite length_app, Nat.add_1_r, <- !app_assoc in IH. simpl in IH.
    apply IH. exact Hs.
Qed.

Lemma getitem_last {A} (init : list A) (l : A) :
  Py.getitem_Z (init ++ [l]) (Z.of_nat (length (init ++ [l])) - 1) = Ok l.
Proof.
  unfold Py.getitem_Z, Py.getitem. rewrite length_app. simpl.
  replace (Z.of_nat (length init + 1) - 1)%Z with (Z.of_nat (length init)) by lia.
  destruct (Z.leb_spec 0 (Z.of_nat (length init))) as [_|Hneg]; [|lia].
  rewrite Nat2Z.id, list_lookup_middle by reflexivity. reflexivity.
Qed.

Lemma writeRow_nonempty lbl cell (samples : list Sample) :
  samples <> [] ->
  writeRow lbl cell samples (Z.of_nat (length samples) - 1) = Ok (lbl, map cell samples).
Proof.
  intros Hne.
  destruct (exists_last Hne) as (init & l & ->).
  unfold writeRow. rewrite getitem_last.
  rewrite length_app. simpl. rewrite Nat.add_sub.
  pose proof (collect_cells cell (init ++ [l]) init [] [l] [] eq_refl) as Hc.
  cbn [length] in Hc. unfold mbind, result_bind in *. rewrite Hc.
  simpl. rewrite map_app. reflexivity.
Qed.

(** On a non-empty list of samples [writeResults] writes its ten lines,
    each with one value per sample, in the order of the samples. *)
Lemma writeResults_nonempty (samples : list Sample) :
  samples <> [] ->
  writeResults samples =
  Ok [("rates", map (fun s => RateCell (rate s)) samples);
      ("reads", map (fun s => CountCell (numberOfReads s)) samples);
      ("domains", map (dictCell domainDictionary) samples);
      ("phylums", map (dictCell phylumDictionary) samples);
      ("classes", map (dictCell classDictionary) samples);
      ("orders", map (dictCell orderDictionary) samples);
      ("families", map (dictCell familyDictionary) samples);
      ("genera", map (dictCell generaDictionary) samples);
      ("species", map (dictCell speciesDictionary) samples);
      ("subspecies", map (dictCell subspeciesDictionary) samples)].
Proof.
  intros Hne. unfold writeResults.
  rewrite !writeRow_nonempty by assumption. reflexivity.
Qed.


(** ** C10: the output indices are in bounds *)



(** ** C2: the range check of the rate *)

(** A rate that is not zero and lies outside (0,1] is refused, before the
    samples are built and before any line is read. *)
Lemma out_of_range_rate_raises draws u t (q : Q) :
  ~ (q == 0)%Q -> ((q < 0)%Q \/ (1 < q)%Q) ->
  checkRate (Some q) = Err (RuntimeError_rate q) /\
  run draws (Some u) (Some t) (Some q) = Err (RuntimeError_rate q).
Proof.
  intros Hnz Hout.
  assert (H : checkRate (Some q) = Err (RuntimeError_rate q)).
  { unfold checkRate, truthy.
    destruct (Qeq_bool q 0) eqn:E; [apply Qeq_bool_iff in E; contradiction|].
    simpl. destruct Hout as [Hneg|Hbig].
    - apply Qlt_le_weak, Qle_bool_iff in Hneg. rewrite Hneg. reflexivity.
    - destruct (Qle_bool q 1) eqn:E1.
      + apply Qle_bool_iff in E1. exfalso. eapply Qlt_not_le; eauto.
      + rewrite orb_true_r. reflexivity. }
  split; [assumption|]. unfold run. simpl. rewrite H. reflexivity.
Qed.

(** C2. The rate 0.0 is not refused: being false as a truth value it is
    replaced by the default rate 0.05 before the range check, and [run]
    proceeds exactly as if no rate had been given, with twenty samples. *)
Theorem rate_zero_not_refused draws u t :
  checkRate (Some 0%Q) = Ok DEFAULT_RATE /\
  run draws u t (Some 0%Q) = run draws u t None /\
  length (initSamples DEFAULT_RATE) = 20 /\
  is_ok (run Example.draws (Some Example.untranslated) (Some Example.translated)
           (Some 0%Q)) = true.
Proof. repeat split. Qed.

(** ** An end-to-end run *)

(** Three reads (classified, unclassified, classified), the draws 0.2, 0.6,
    0.4 and the rate 0.5: the sample at 0.5 holds the first and third read,
    the sample at 1.0 all three. *)
Example end_to_end :
  run Example.draws (Some Example.untranslated) (Some Example.translated)
      (Some (1 # 2)) =
  Ok [("rates", [RateCell (1 * (1 # 2)); RateCell (2 * (1 # 2))]);
      ("reads", [CountCell 2; CountCell 3]);
      ("domains", [CountCell 1; CountCell 1]);
      ("phylums", [CountCell 1; CountCell 1]);
      ("classes", [CountCell 0; CountCell 0]);
      ("orders", [CountCell 0; CountCell 0]);
      ("families", [CountCell 0; CountCell 0]);
      ("genera", [CountCell 0; CountCell 0]);
      ("species", [CountCell 1; CountCell 1]);
      ("subspecies", [CountCell 0; CountCell 0])].
Proof. reflexivity. Qed.

(** A missing input file is reported before the rate is looked at. *)
Example missing_input draws t rate0 :
  run draws None t rate0 = Err (RuntimeError_input Untranslated).
Proof. reflexivity. Qed.

(** * Further properties of the program *)

(** ** Occurrence counts in a dictionary *)

Lemma updateRank_lookup lbl (d : gmap string nat) rank t :
  updateRank lbl d rank !! t =
  (if decide (rank = t) then
     if Py.startswith t (String.append lbl KRAKEN_SEPARATOR)
     then Some (default 0 (d !! t) + 1) else d !! t
   else d !! t).
Proof.
  unfold updateRank. destruct (decide (rank = t)) as [->|Hne].
  - destruct (Py.startswith t _); [|reflexivity].
    destruct (d !! t) as [n|] eqn:E; rewrite lookup_insert_eq; reflexivity.
  - destruct (Py.startswith rank _); [|reflexivity].
    destruct (d !! rank); rewrite lookup_insert_ne by assumption; reflexivity.
Qed.

Lemma occurrences_cons rank rankings t :
  occurrences t (rank :: rankings) =
  (if decide (rank = t) then S (occurrences t rankings) else occurrences t rankings).
Proof.
  unfold occurrences. simpl.
  destruct (string_dec rank t), (decide (rank = t)); congruence.
Qed.

Lemma lookup_updateDictionary (d : gmap string nat) rankings lbl t :
  updateDictionary d rankings lbl !! t =
  (if Py.startswith t (String.append lbl KRAKEN_SEPARATOR)
      && (0 <? occurrences t rankings)%nat
   then Some (default 0 (d !! t) + occurrences t rankings)
   else d !! t).
Proof.
  unfold updateDictionary. revert d.
  induction rankings as [|rank rankings IH]; intros d.
  - simpl. rewrite andb_false_r. reflexivity.
  - cbn [foldl]. rewrite IH, occurrences_cons, updateRank_lookup.
    destruct (decide (rank = t)) as [->|Hne]; [|reflexivity].
    destruct (Py.startswith t _); simpl; [|reflexivity].
    destruct (Nat.ltb_spec 0 (occurrences t rankings)); f_equal; lia.
Qed.

(** [updateDictionary] counts: a token with the prefix of the label that
    occurs [n > 0] times in the rankings has its count raised by [n] (from 0
    if it was not a key); every other key keeps its count and every other
    token stays absent.  The keys afterwards are the former keys and the
    tokens of the rankings with the prefix. *)
Theorem updateDictionary_counts (d : gmap string nat) rankings lbl :
  (forall t,
     updateDictionary d rankings lbl !! t =
     (if Py.startswith t (String.append lbl KRAKEN_SEPARATOR)
         && (0 <? occurrences t rankings)%nat
      then Some (default 0 (d !! t) + occurrences t rankings)
      else d !! t)) /\
  dom (updateDictionary d rankings lbl) =
    dom d ∪ list_to_set
              (filter (fun t => Py.startswith t (String.append lbl KRAKEN_SEPARATOR) = true)
                      rankings).
Proof.
  split; [intros t; apply lookup_updateDictionary | apply dom_updateDictionary].
Qed.

(** The order of the rank tokens of a read does not matter. *)
Theorem updateDictionary_permutation (d : gmap string nat) r1 r2 lbl :
  Permutation r1 r2 ->
  updateDictionary d r1 lbl = updateDictionary d r2 lbl.
Proof.
  intros Hp. apply map_eq. intros t. rewrite !lookup_updateDictionary.
  unfold occurrences.
  rewrite (proj1 (Permutation_count_occ string_dec r1 r2) Hp t). reflexivity.
Qed.

Lemma updateDictionary_permutation_witness :
  updateDictionary ∅ ["d__A"; "p__B"; "d__C"] DOMAIN =
  updateDictionary ∅ ["d__C"; "d__A"; "p__B"] DOMAIN.
Proof.
  apply (updateDictionary_permutation ∅ ["d__A"; "p__B"; "d__C"]
           ["d__C"; "d__A"; "p__B"] DOMAIN).
  apply (Permutation_trans (l' := ["d__A"; "d__C"; "p__B"])).
  - apply perm_skip, perm_swap.
  - apply perm_swap.
Defined.

Lemma occurrences_filter k t (l : list string) :
  occurrences t (filter (fun x => hasRank k x = true) l) =
  (if hasRank k t then occurrences t l else 0).
Proof.
  induction l as [|x l IH].
  - simpl. destruct (hasRank k t); reflexivity.
  - destruct (hasRank k x) eqn:E.
    + rewrite filter_cons_True by assumption. rewrite !occurrences_cons, IH.
      destruct (decide (x = t)) as [->|]; [rewrite E|]; reflexivity.
    + rewrite filter_cons_False by congruence. rewrite occurrences_cons, IH.
      destruct (decide (x = t)) as [->|]; [rewrite E|]; reflexivity.
Qed.

Lemma occurrences_app t (l1 l2 : list string) :
  occurrences t (l1 ++ l2) = occurrences t l1 + occurrences t l2.
Proof. apply count_occ_app. Qed.

Lemma lookup_includeRead k rd s t :
  dictionaryOf k (includeRead rd s) !! t =
  (if (0 <? occurrences t (observed k (rate s) [rd]))%nat
   then Some (default 0 (dictionaryOf k s !! t)
              + occurrences t (observed k (rate s) [rd]))
   else dictionaryOf k s !! t).
Proof.
  unfold includeRead, observed, included. simpl. rewrite app_nil_r.
  destruct (Qle_bool rd.1 (rate s)); [|reflexivity].
  destruct (snd rd) as [r|]; simpl.
  - rewrite dictionaryOf_updateDictionaries, lookup_updateDictionary,
      dictionaryOf_incrementReads, occurrences_filter.
    unfold hasRank. destruct (Py.startswith t _); simpl; [|reflexivity].
    reflexivity.
  - apply (f_equal (fun d => d !! t)), dictionaryOf_incrementReads.
Qed.

(** The count of a token in a dictionary grows by the number of times the
    reads included in the sample carry it. *)
Lemma lookup_includeReads k t reads : forall s,
  dictionaryOf k (includeReads reads s) !! t =
  (if (0 <? occurrences t (observed k (rate s) reads))%nat
   then Some (default 0 (dictionaryOf k s !! t)
              + occurrences t (observed k (rate s) reads))
   else dictionaryOf k s !! t).
Proof.
  induction reads as [|rd reads IH]; intros s.
  - reflexivity.
  - change (includeReads (rd :: reads) s)
      with (includeReads reads (includeRead rd s)).
    rewrite IH, rate_includeRead, lookup_includeRead,
      (observed_cons k _ rd reads), occurrences_app.
    generalize (occurrences t (observed k (rate s) [rd])) as a.
    generalize (occurrences t (observed k (rate s) reads)) as b.
    generalize (dictionaryOf k s !! t) as o. intros o b a.
    destruct (Nat.ltb_spec 0 a), (Nat.ltb_spec 0 b), (Nat.ltb_spec 0 (a + b));
      simpl; try lia; try reflexivity; apply (f_equal Some); lia.
Qed.

(** After a pass from fresh samples the value stored under a token is the
    number of times the reads included in the sample carry the token; a
    token they never carry is not a key. *)
Theorem occurrence_counts draws u t rates samples' i (s' : Sample) k :
  generateRarefaction draws u t (map newSample rates) = Ok samples' ->
  samples' !! i = Some s' ->
  exists reads,
    pairRecords draws 0 t u = Ok reads /\
    forall token,
      dictionaryOf k s' !! token =
      (if (0 <? occurrences token (observed k (rate s') reads))%nat
       then Some (occurrences token (observed k (rate s') reads))
       else None).
Proof.
  rewrite generateRarefaction_spec. intros H Hi.
  apply bind_Ok in H as (reads & Hp & [= H]).
  exists reads. split; [assumption|]. intros token.
  rewrite (lookup_fresh_samples _ _ _ _ _ H Hi) at 1.
  rewrite lookup_includeReads, dictionaryOf_newSample, lookup_empty. reflexivity.
Qed.

Lemma occurrence_counts_witness :
  exists reads,
    pairRecords Example.draws 0 Example.threeTranslations Example.threeReads = Ok reads /\
    forall token,
      dictionaryOf Domain (default (newSample 0) (Example.threeSamples !! 0)) !! token =
      (if (0 <? occurrences token
                  (observed Domain
                     (rate (default (newSample 0) (Example.threeSamples !! 0))) reads))%nat
       then Some (occurrences token
                    (observed Domain
                       (rate (default (newSample 0) (Example.threeSamples !! 0))) reads))
       else None).
Proof.
  apply (occurrence_counts Example.draws Example.threeReads
           Example.threeTranslations (map rate (initSamples 1))
           Example.threeSamples 0).
  - reflexivity.
  - reflexivity.
Defined.

(** ** Tokens without a rank *)

Lemma updateDictionary_none (d : gmap string nat) rankings lbl :
  (forall t, t ∈ rankings ->
     Py.startswith t (String.append lbl KRAKEN_SEPARATOR) = false) ->
  updateDictionary d rankings lbl = d.
Proof.
  unfold updateDictionary. revert d.
  induction rankings as [|rank rankings IH]; intros d H; simpl.
  - reflexivity.
  - unfold updateRank at 2. rewrite (H rank) by left.
    apply IH. intros t Ht. apply H. right. exact Ht.
Qed.

(** Rank tokens that carry none of the eight prefixes leave the sample as
    it is. *)
Theorem unranked_tokens_ignored (s : Sample) rankings :
  (forall t, t ∈ rankings -> forall k, hasRank k t = false) ->
  updateDictionaries s rankings = s.
Proof.
  intros H. destruct s. unfold updateDictionaries. simpl.
  f_equal; apply updateDictionary_none; intros t Ht.
  - apply (H t Ht Domain).
  - apply (H t Ht Phylum).
  - apply (H t Ht Class).
  - apply (H t Ht Order).
  - apply (H t Ht Family).
  - apply (H t Ht Genera).
  - apply (H t Ht Species).
  - apply (H t Ht Subspecies).
Qed.

Lemma unranked_tokens_ignored_witness :
  updateDictionaries (newSample 1) ["root"; "k__Fungi"; "d_Bacteria"; ""]
  = newSample 1.
Proof.
  apply (unranked_tokens_ignored (newSample 1)
           ["root"; "k__Fungi"; "d_Bacteria"; ""]).
  intros t Ht k. repeat (apply elem_of_cons in Ht as [->|Ht]);
    [destruct k; reflexivity ..|].
  inversion Ht.
Defined.

(** ** A token has at most one rank *)

Lemma prefix_cons_inv a p (t : string) :
  String.prefix (String a p) t = true ->
  exists t', t = String a t' /\ String.prefix p t' = true.
Proof.
  destruct t as [|c t]; simpl; [discriminate|].
  destruct (ascii_dec a c) as [->|]; [eauto | discriminate].
Qed.

Lemma hasRank_unique k1 k2 t :
  hasRank k1 t = true -> hasRank k2 t = true -> k1 = k2.
Proof.
  destruct k1, k2; try reflexivity;
    cbv [hasRank Py.startswith label String.append DOMAIN PHYLUM CLASS ORDER
         FAMILY GENERA SPECIES SUBSPECIES KRAKEN_SEPARATOR];
    intros H1 H2;
    apply prefix_cons_inv in H1 as (t1 & -> & H1);
    apply prefix_cons_inv in H2 as (t2 & E & H2);
    try discriminate E;
    injection E as <-;
    apply prefix_cons_inv in H1 as (t1' & -> & H1);
    apply prefix_cons_inv in H2 as (t2' & E & H2);
    discriminate E.
Qed.

Lemma observed_hasRank k r reads t :
  t ∈ observed k r reads -> hasRank k t = true.
Proof.
  unfold observed. rewrite list_elem_of_In, in_flat_map.
  intros (rd & _ & Hin). destruct (Qle_bool rd.1 r); [|inversion Hin].
  apply list_elem_of_In, list_elem_of_filter in Hin as [Hr _]. exact Hr.
Qed.

(** After a pass from fresh samples every key of a dictionary carries the
    prefix of the rank of that dictionary, and no token is a key of the
    dictionaries of two ranks: a subspecies token ("s1__") is never counted
    as a species ("s__"). *)
Theorem token_in_one_dictionary draws u t rates samples' i (s' : Sample) k token :
  generateRarefaction draws u t (map newSample rates) = Ok samples' ->
  samples' !! i = Some s' ->
  token ∈ dom (dictionaryOf k s') ->
  hasRank k token = true /\
  forall k', token ∈ dom (dictionaryOf k' s') -> k' = k.
Proof.
  rewrite generateRarefaction_spec. intros H Hi Hin.
  apply bind_Ok in H as (reads & Hp & [= H]).
  pose proof (lookup_fresh_samples _ _ _ _ _ H Hi) as Hs'.
  assert (Hkeys : forall k0, token ∈ dom (dictionaryOf k0 s') -> hasRank k0 token = true).
  { intros k0. rewrite Hs' at 1.
    rewrite dom_includeReads, dictionaryOf_newSample, dom_empty_L.
    rewrite elem_of_union, elem_of_list_to_set. intros [Hx|Hx]; [set_solver|].
    eapply observed_hasRank, Hx. }
  split; [apply Hkeys, Hin|].
  intros k' Hin'. eapply hasRank_unique; eauto.
Qed.

Lemma token_in_one_dictionary_witness :
  hasRank Domain "d__A" = true /\
  forall k',
    "d__A" ∈ dom (dictionaryOf k' (default (newSample 0) (Example.threeSamples !! 0))) ->
    k' = Domain.
Proof.
  apply (token_in_one_dictionary Example.draws Example.threeReads
           Example.threeTranslations (map rate (initSamples 1))
           Example.threeSamples 0).
  - reflexivity.
  - reflexivity.
  - vm_compute. reflexivity.
Defined.

(** ** The pass only adds *)

Lemma includedReads_le r (reads : list ReadRecord) :
  includedReads r reads <= length reads.
Proof. unfold includedReads. apply length_filter. Qed.

(** During a pass, from any state, a sample keeps its position and its rate,
    its number of reads grows by at most one per line, and no key of a
    dictionary is removed nor its count lowered. *)
Theorem pass_only_adds draws st u st' i (s : Sample) :
  readLoop draws st u = Ok st' ->
  st_samples st !! i = Some s ->
  exists s',
    st_samples st' !! i = Some s' /\
    rate s' = rate s /\
    numberOfReads s <= numberOfReads s' /\
    numberOfReads s' <= numberOfReads s + length u /\
    forall k token n,
      dictionaryOf k s !! token = Some n ->
      exists n', dictionaryOf k s' !! token = Some n' /\ n <= n'.
Proof.
  intros H Hi.
  destruct (readLoop_Ok _ _ _ _ H) as (reads & Hp & Hs & _).
  exists (includeReads reads s). split.
  { rewrite Hs. change (map ?f ?l) with (f <$> l).
    rewrite list_lookup_fmap, Hi. reflexivity. }
  split; [apply rate_includeReads|].
  rewrite numberOfReads_includeReads.
  pose proof (includedReads_le (rate s) reads) as Hle.
  rewrite (pairRecords_length _ _ _ _ _ Hp) in Hle.
  split; [lia|]. split; [lia|].
  intros k token n Hn. rewrite lookup_includeReads, Hn. simpl.
  destruct (0 <? _)%nat; eexists; split; try reflexivity; lia.
Qed.

Lemma pass_only_adds_witness :
  exists s',
    st_samples Example.final !! 1 = Some s' /\
    rate s' = rate (newSample (2 * (1 # 2))) /\
    numberOfReads (newSample (2 * (1 # 2))) <= numberOfReads s' /\
    numberOfReads s' <=
      numberOfReads (newSample (2 * (1 # 2))) + length Example.untranslated /\
    forall k token n,
      dictionaryOf k (newSample (2 * (1 # 2))) !! token = Some n ->
      exists n', dictionaryOf k s' !! token = Some n' /\ n <= n'.
Proof.
  apply (pass_only_adds Example.draws Example.start Example.untranslated
           Example.final 1 (newSample (2 * (1 # 2)))).
  - reflexivity.
  - reflexivity.
Defined.

(** ** A sample without reads *)

Lemma observed_nil_of_no_reads k r (reads : list ReadRecord) :
  includedReads r reads = 0 -> observed k r reads = [].
Proof.
  unfold includedReads, observed.
  induction reads as [|rd reads IH]; simpl; [reflexivity|].
  destruct (Qle_bool rd.1 r) eqn:E.
  - rewrite filter_cons_True by assumption. discriminate.
  - rewrite filter_cons_False by congruence. exact IH.
Qed.

(** After a pass from fresh samples, a sample that has counted no read has
    eight empty dictionaries. *)
Theorem no_reads_no_taxa draws u t rates samples' i (s' : Sample) k :
  generateRarefaction draws u t (map newSample rates) = Ok samples' ->
  samples' !! i = Some s' ->
  numberOfReads s' = 0 ->
  dictionaryOf k s' = ∅.
Proof.
  rewrite generateRarefaction_spec. intros H Hi H0.
  apply bind_Ok in H as (reads & Hp & [= H]).
  pose proof (lookup_fresh_samples _ _ _ _ _ H Hi) as Hs'.
  rewrite Hs', numberOfReads_includeReads in H0. simpl in H0.
  apply map_eq. intros token. rewrite Hs', lookup_includeReads.
  simpl. rewrite (observed_nil_of_no_reads k _ reads H0).
  simpl. rewrite dictionaryOf_newSample. reflexivity.
Qed.

Lemma no_reads_no_taxa_witness :
  dictionaryOf Phylum (newSample (1 # 10)) = ∅.
Proof.
  apply (no_reads_no_taxa Example.draws Example.untranslated Example.translated
           [1 # 10] [newSample (1 # 10)] 0).
  - reflexivity.
  - reflexivity.
  - reflexivity.
Defined.

Lemma nested_samples_witness :
  numberOfReads (default (newSample 0) (st_samples Example.final !! 0)) <=
  numberOfReads (default (newSample 0) (st_samples Example.final !! 1)) /\
  dom (dictionaryOf Species (default (newSample 0) (st_samples Example.final !! 0))) ⊆
  dom (dictionaryOf Species (default (newSample 0) (st_samples Example.final !! 1))).
Proof.
  apply (nested_samples Example.draws Example.untranslated Example.translated
           (map rate (initSamples (1 # 2))) (st_samples Example.final) 0 1).
  - reflexivity.
  - reflexivity.
  - reflexivity.
  - reflexivity.
Defined.

(** ** The number of reads of a sample *)

Lemma includedReads_draws draws r u : forall k tf reads,
  pairRecords draws k tf u = Ok reads ->
  includedReads r reads =
  length (filter (fun j => Qle_bool (draws j) r = true) (seq k (length u))).
Proof.
  unfold includedReads.
  induction u as [|line u IH]; intros k tf reads; simpl.
  - intros [= <-]. reflexivity.
  - intros H. apply bind_Ok in H as (c & _ & H).
    assert (Hcons : exists o rds tf',
               pairRecords draws (S k) tf' u = Ok rds /\ reads = (draws k, o) :: rds).
    { destruct (Ascii.eqb c CLASSIFIED).
      - apply bind_Ok in H as (r0 & _ & H). apply bind_Ok in H as (rds & Hr & [= <-]).
        eauto 10.
      - apply bind_Ok in H as (rds & Hr & [= <-]). eauto 10. }
    destruct Hcons as (o & rds & tf' & Hr & ->).
    specialize (IH _ _ _ Hr).
    destruct (Qle_bool (draws k) r) eqn:E.
    + rewrite !filter_cons_True by assumption. simpl. f_equal. exact IH.
    + rewrite !filter_cons_False by (simpl; congruence). exact IH.
Qed.

(** After a pass from fresh samples the number of reads of a sample is the
    number of lines of the untranslated file whose draw does not exceed the
    rate of the sample, classified or not. *)
Theorem read_count_formula draws u t rates samples' i (s' : Sample) :
  generateRarefaction draws u t (map newSample rates) = Ok samples' ->
  samples' !! i = Some s' ->
  numberOfReads s' =
  length (filter (fun j => Qle_bool (draws j) (rate s') = true) (seq 0 (length u))).
Proof.
  rewrite generateRarefaction_spec. intros H Hi.
  apply bind_Ok in H as (reads & Hp & [= H]).
  rewrite (lookup_fresh_samples _ _ _ _ _ H Hi) at 1.
  rewrite numberOfReads_includeReads. simpl.
  eapply includedReads_draws, Hp.
Qed.

Lemma read_count_formula_witness :
  numberOfReads (default (newSample 0) (st_samples Example.final !! 0)) =
  length (filter
            (fun j => Qle_bool (Example.draws j)
                        (rate (default (newSample 0) (st_samples Example.final !! 0)))
                      = true)
            (seq 0 (length Example.untranslated))).
Proof.
  apply (read_count_formula Example.draws Example.untranslated Example.translated
           (map rate (initSamples (1 # 2))) (st_samples Example.final) 0).
  - reflexivity.
  - reflexivity.
Defined.

(** ** One pass for all rates *)

(** The sample at position [i] ends as it would in a pass of its own: the
    pass over many rates gives each sample what a pass with that sample
    alone gives it. *)
Theorem one_pass_per_rate draws u t samples samples' i (s : Sample) :
  generateRarefaction draws u t samples = Ok samples' ->
  samples !! i = Some s ->
  exists s',
    samples' !! i = Some s' /\
    generateRarefaction draws u t [s] = Ok [s'].
Proof.
  rewrite !generateRarefaction_spec. intros H Hi.
  apply bind_Ok in H as (reads & Hp & [= <-]).
  exists (includeReads reads s). split.
  - change (map ?f ?l) with (f <$> l). rewrite list_lookup_fmap, Hi. reflexivity.
  - rewrite Hp. reflexivity.
Qed.

Lemma one_pass_per_rate_witness :
  exists s',
    st_samples Example.final !! 0 = Some s' /\
    generateRarefaction Example.draws Example.untranslated Example.translated
      [newSample (1 * (1 # 2))] = Ok [s'].
Proof.
  apply (one_pass_per_rate Example.draws Example.untranslated Example.translated
           (initSamples (1 # 2)) (st_samples Example.final) 0
           (newSample (1 * (1 # 2)))).
  - reflexivity.
  - reflexivity.
Defined.

(** ** Reading a file in two parts *)

Lemma pairRecords_shift draws n u : forall k tf,
  pairRecords draws (n + k) tf u = pairRecords (laterDraws draws n) k tf u.
Proof.
  induction u as [|line u IH]; intros k tf; simpl; [reflexivity|].
  unfold laterDraws at 2 4.
  assert (HS : forall tf', pairRecords draws (S (n + k)) tf' u
                           = pairRecords (laterDraws draws n) (S k) tf' u).
  { intros tf'. rewrite <- IH. f_equal. lia. }
  rewrite !HS. reflexivity.
Qed.

(** A pass over the lines [u1 ++ u2] is a pass over [u1] followed by a pass
    over [u2] that starts where the first one stopped: with the draws after
    the first [length u1] ones, the records of the translated file after
    the ones the classified lines of [u1] took, and the samples as the first
    pass left them. *)
Theorem pass_in_two_parts draws u1 u2 t samples :
  generateRarefaction draws (u1 ++ u2) t samples =
  (generateRarefaction draws u1 t samples ≫= fun samples1 =>
   generateRarefaction (laterDraws draws (length u1)) u2
     (drop (countClassified u1) t) samples1).
Proof.
  rewrite !generateRarefaction_spec, pairRecords_app. simpl.
  destruct (pairRecords draws 0 t u1) as [rds1|e]; simpl; [|reflexivity].
  rewrite generateRarefaction_spec.
  replace (length u1) with (length u1 + 0) at 1 by lia.
  rewrite pairRecords_shift.
  destruct (pairRecords _ 0 _ u2) as [rds2|e]; simpl; [|reflexivity].
  rewrite map_map. f_equal. apply map_ext. intros s.
  unfold includeReads. apply foldl_app.
Qed.

(** ** When the pass succeeds *)

Lemma parseTranslation_enough rec :
  2 <= length (Py.split (Py.strip rec)) -> exists r, parseTranslation rec = Ok r.
Proof.
  unfold parseTranslation, Py.getitem.
  destruct (Py.split (Py.strip rec)) as [|t0 [|t1 ts]]; simpl; try lia.
  eauto.
Qed.

Lemma parseTranslation_tokens rec r :
  parseTranslation rec = Ok r -> 2 <= length (Py.split (Py.strip rec)).
Proof.
  intros H. apply parseTranslation_Ok in H as (t0 & t1 & ts & -> & _). simpl. lia.
Qed.

Lemma aligned_cons tf line u :
  aligned tf (line :: u) <->
  line <> EmptyString /\
  (if isClassified line
   then exists rec tf', tf = rec :: tf' /\
                        2 <= length (Py.split (Py.strip rec)) /\ aligned tf' u
   else aligned tf u).
Proof.
  unfold aligned. split.
  - intros [Hne Hrec]. split; [apply Hne; left|].
    destruct (isClassified line) eqn:Hc.
    + destruct (Hrec [] line u eq_refl Hc) as (rec & Hl & Htok).
      destruct tf as [|rec' tf']; [discriminate|]. injection Hl as ->.
      exists rec, tf'. repeat split; try assumption.
      * intros l Hl. apply Hne. right. exact Hl.
      * intros pre l post -> Hcl.
        destruct (Hrec (line :: pre) l post eq_refl Hcl) as (rec0 & Hl0 & Htok0).
        rewrite countClassified_cons, Hc in Hl0. eauto.
    + split.
      * intros l Hl. apply Hne. right. exact Hl.
      * intros pre l post -> Hcl.
        destruct (Hrec (line :: pre) l post eq_refl Hcl) as (rec0 & Hl0 & Htok0).
        rewrite countClassified_cons, Hc in Hl0. eauto.
  - intros [Hline Hrest]. destruct (isClassified line) eqn:Hc.
    + destruct Hrest as (rec & tf' & -> & Htok & Hne & Hrec). split.
      * intros l [->|Hl]%elem_of_cons; [assumption | apply Hne, Hl].
      * intros [|l0 pre] l post E Hcl; simpl in E; injection E as -> ->.
        -- exists rec. split; [reflexivity | assumption].
        -- rewrite countClassified_cons, Hc. simpl. eapply Hrec; eauto.
    + destruct Hrest as [Hne Hrec]. split.
      * intros l [->|Hl]%elem_of_cons; [assumption | apply Hne, Hl].
      * intros [|l0 pre] l post E Hcl; simpl in E; injection E as -> ->.
        -- congruence.
        -- rewrite countClassified_cons, Hc. eapply Hrec; eauto.
Qed.

Lemma pairRecords_aligned draws u : forall k tf,
  (exists reads, pairRecords draws k tf u = Ok reads) <-> aligned tf u.
Proof.
  induction u as [|line u IH]; intros k tf.
  - split; [|simpl; eauto]. intros _. split.
    + intros l Hl. inversion Hl.
    + intros [|? ?] ? ? E; discriminate E.
  - rewrite aligned_cons.
    destruct (line_cases line) as [-> | [[tl ->] | [Hc Hne]]].
    + split; [intros [? H]; discriminate H | intros [H _]; congruence].
    + simpl. replace (Ascii.eqb CLASSIFIED CLASSIFIED) with true by reflexivity.
      split.
      * intros [reads H].
        apply bind_Ok in H as (r & Hr & H). apply bind_Ok in H as (rds & Hrds & _).
        split; [discriminate|].
        destruct tf as [|rec tf']; [discriminate Hr|]. simpl in Hr, Hrds.
        exists rec, tf'. repeat split.
        -- eapply parseTranslation_tokens, Hr.
        -- apply (proj1 (IH (S k) tf')). eauto.
        -- apply (proj1 (IH (S k) tf')). eauto.
      * intros [_ (rec & tf' & -> & Htok & Hal)]. simpl.
        destruct (parseTranslation_enough _ Htok) as [r ->]. simpl.
        destruct (proj2 (IH (S k) tf') Hal) as [rds ->]. simpl. eauto.
    + destruct line as [|c tl]; [congruence|]. simpl in Hc. simpl. rewrite Hc.
      split.
      * intros [reads H]. apply bind_Ok in H as (rds & Hrds & _).
        split; [discriminate|]. apply (proj1 (IH (S k) tf)). eauto.
      * intros [_ Hal]. destruct (proj2 (IH (S k) tf) Hal) as [rds ->].
        simpl. eauto.
Qed.

(** [generateRarefaction] completes exactly when no line of the untranslated
    file is empty and every classified line finds its own record, with at
    least two tokens, in the translated file; whether it completes depends
    neither on the draws nor on the samples. *)
Theorem pass_completes_iff_aligned draws u t samples :
  (exists samples', generateRarefaction draws u t samples = Ok samples') <->
  aligned t u.
Proof.
  rewrite generateRarefaction_spec, <- (pairRecords_aligned draws u 0 t). split.
  - intros [samples' H]. apply bind_Ok in H as (reads & Hp & _). eauto.
  - intros [reads ->]. simpl. eauto.
Qed.


(** The only exception the pass raises is [IndexError], whatever the state it
    starts from: the local variable [rankings] is never read before it is
    bound, and no sample is looked up out of range. *)
Theorem pass_raises_only_IndexError draws st u e :
  readLoop draws st u = Err e -> e = IndexError.
Proof.
  rewrite readLoop_spec.
  destruct (pairRecords draws _ _ u) as [reads|e'] eqn:Hp; simpl; [discriminate|].
  intros [= <-]. eapply pairRecords_Err, Hp.
Qed.

Lemma pass_raises_only_IndexError_witness :
  match readLoop Example.draws (initialState [] (initSamples 1)) Example.untranslated with
  | Ok _ => NameError
  | Err e => e
  end = IndexError.
Proof.
  apply (pass_raises_only_IndexError Example.draws (initialState [] (initSamples 1))
           Example.untranslated).
  reflexivity.
Defined.

(** ** Records left over in the translated file *)

Lemma pairRecords_surplus draws extra u : forall k tf,
  countClassified u <= length tf ->
  pairRecords draws k (tf ++ extra) u = pairRecords draws k tf u.
Proof.
  induction u as [|line u IH]; intros k tf Hle; [reflexivity|].
  rewrite countClassified_cons in Hle. simpl.
  destruct line as [|c tl]; [reflexivity|]. simpl in Hle. simpl.
  destruct (Ascii.eqb c CLASSIFIED).
  - destruct tf as [|rec tf']; simpl in Hle; [lia|]. simpl.
    rewrite IH by lia. reflexivity.
  - rewrite IH by lia. reflexivity.
Qed.

(** Records of the translated file beyond the ones the classified lines need
    are never read: they change nothing, and their presence is not reported. *)
Theorem surplus_records_ignored draws u t extra samples :
  countClassified u <= length t ->
  generateRarefaction draws u (t ++ extra) samples =
  generateRarefaction draws u t samples.
Proof.
  intros Hle. rewrite !generateRarefaction_spec, pairRecords_surplus by assumption.
  reflexivity.
Qed.

Lemma surplus_records_ignored_witness :
  generateRarefaction Example.draws Example.untranslated
    (Example.translated ++ ["r9 d__Archaea"; ""]) (initSamples (1 # 2)) =
  generateRarefaction Example.draws Example.untranslated
    Example.translated (initSamples (1 # 2)).
Proof.
  apply (surplus_records_ignored Example.draws Example.untranslated
           Example.translated ["r9 d__Archaea"; ""] (initSamples (1 # 2))).
  vm_compute. lia.
Defined.

(** ** The table written by writeResults *)

(** [writeResults] raises [IndexError] on an empty list of samples.  On a
    non-empty list it writes ten lines labelled rates, reads, domains,
    phylums, classes, orders, families, genera, species, subspecies, in this
    order, and line [j] holds, in the order of the samples, the [j]-th value
    of each sample: its rate, its number of reads and the sizes of its
    eight dictionaries. *)
Theorem writeResults_table (samples : list Sample) :
  match samples with
  | [] => writeResults samples = Err IndexError
  | _ :: _ =>
      exists rows,
        writeResults samples = Ok rows /\
        map fst rows = rowLabels /\
        forall j lbl cells,
          rows !! j = Some (lbl, cells) ->
          length cells = length samples /\
          forall i s, samples !! i = Some s -> cells !! i = column s !! j
  end.
Proof.
  destruct samples as [|s0 samples]; [reflexivity|].
  remember (s0 :: samples) as l eqn:El.
  assert (Hne : l <> []) by (subst l; discriminate).
  eexists. split; [apply writeResults_nonempty, Hne|].
  split; [reflexivity|].
  intros j lbl cells Hj.
  do 10 (destruct j as [|j]; [injection Hj as <- <-; split;
    [apply length_map
    | intros i s Hi; change (map ?f ?l) with (f <$> l);
      rewrite list_lookup_fmap, Hi; reflexivity]|]).
  discriminate Hj.
Qed.

(** ** The rate used by a run *)





(** ** The outcomes of run *)




(** ** Reading a record of the translated file *)

Lemma rev_app_append (s1 s2 s3 : string) :
  String.append (String.rev_app s1 s2) s3 = String.rev_app s1 (String.append s2 s3).
Proof. revert s2. induction s1 as [|a s1 IH]; intros s2; simpl; [reflexivity | apply IH]. Qed.

Lemma split_sep_go_nonempty sep s cur : Py.split_sep_go sep s cur <> [].
Proof.
  destruct s as [|c s]; simpl; [discriminate|].
  destruct (Ascii.eqb c sep); [discriminate|].
  revert c cur. induction s as [|c' s IH]; intros c cur; simpl; [discriminate|].
  destruct (Ascii.eqb c' sep); [discriminate | apply IH].
Qed.

Lemma concat_cons sep x (xs : list string) :
  xs <> [] ->
  String.concat sep (x :: xs) = String.append x (String.append sep (String.concat sep xs)).
Proof. destruct xs; [congruence | reflexivity]. Qed.

Lemma concat_split_sep_go sep s : forall cur,
  String.concat (String sep EmptyString) (Py.split_sep_go sep s cur)
  = String.rev_app cur s.
Proof.
  induction s as [|c s IH]; intros cur; simpl.
  - reflexivity.
  - destruct (Ascii.eqb c sep) eqn:E.
    + apply Ascii.eqb_eq in E. subst c.
      rewrite concat_cons by apply split_sep_go_nonempty.
      rewrite IH. unfold String.rev. rewrite rev_app_append. reflexivity.
    + apply IH.
Qed.

Lemma lacks_rev_app c s1 : forall s2,
  lacks c (String.rev_app s1 s2) = lacks c s1 && lacks c s2.
Proof.
  induction s1 as [|a s1 IH]; intros s2; simpl; [reflexivity|].
  rewrite IH. simpl. destruct (Ascii.eqb a c), (lacks c s1); reflexivity.
Qed.

Lemma lacks_split_sep_go sep s : forall cur,
  lacks sep cur = true ->
  Forall (fun x => lacks sep x = true) (Py.split_sep_go sep s cur).
Proof.
  induction s as [|c s IH]; intros cur Hcur; simpl.
  - constructor; [|constructor]. unfold String.rev.
    rewrite lacks_rev_app, Hcur. reflexivity.
  - destruct (Ascii.eqb c sep) eqn:E.
    + constructor; [|apply IH; reflexivity]. unfold String.rev.
      rewrite lacks_rev_app, Hcur. reflexivity.
    + apply IH. simpl. rewrite E, Hcur. reflexivity.
Qed.

Lemma nospace_rev_app s1 : forall s2,
  nospace (String.rev_app s1 s2) = nospace s1 && nospace s2.
Proof.
  induction s1 as [|a s1 IH]; intros s2; simpl; [reflexivity|].
  rewrite IH. simpl. destruct (Py.isspace a), (nospace s1); reflexivity.
Qed.

Lemma rev_app_nonempty s1 : forall a s2,
  String.rev_app s1 (String a s2) <> EmptyString.
Proof.
  induction s1 as [|b s1 IH]; intros a s2; simpl; [discriminate | apply IH].
Qed.

(** The tokens of [split] are not empty and contain no whitespace. *)
Lemma split_go_tokens s : forall cur,
  nospace cur = true ->
  Forall (fun tok => tok <> EmptyString /\ nospace tok = true) (Py.split_go s cur).
Proof.
  assert (Hrev : forall a cur, nospace (String a cur) = true ->
            String.rev (String a cur) <> EmptyString /\
            nospace (String.rev (String a cur)) = true).
  { intros a cur H. split.
    - unfold String.rev. simpl. apply rev_app_nonempty.
    - unfold String.rev. rewrite nospace_rev_app, H. reflexivity. }
  induction s as [|c s IH]; intros cur Hcur; simpl.
  - destruct cur as [|a cur]; constructor; [apply Hrev, Hcur | constructor].
  - destruct (Py.isspace c) eqn:E.
    + destruct cur as [|a cur]; [apply IH; reflexivity|].
      constructor; [apply Hrev, Hcur | apply IH; reflexivity].
    + apply IH. simpl. rewrite E, Hcur. reflexivity.
Qed.

Lemma strip_nospace s : nospace s = true -> Py.strip s = s.
Proof.
  intros H. unfold Py.strip.
  assert (Hl : Py.lstrip s = s).
  { destruct s as [|a s]; simpl in *; [reflexivity|].
    destruct (Py.isspace a); [discriminate | reflexivity]. }
  rewrite Hl. clear Hl.
  induction s as [|a s IH]; simpl in *; [reflexivity|].
  destruct (Py.isspace a) eqn:E; [discriminate|]. simpl in H.
  rewrite IH by assumption. destruct s; reflexivity.
Qed.

Lemma split_go_lstrip s : Py.split_go (Py.lstrip s) EmptyString = Py.split_go s EmptyString.
Proof.
  induction s as [|c s IH]; simpl; [reflexivity|].
  destruct (Py.isspace c) eqn:E; [exact IH|]. simpl. rewrite E. reflexivity.
Qed.

Lemma split_go_rstrip s : forall cur,
  Py.split_go (Py.rstrip s) cur = Py.split_go s cur.
Proof.
  induction s as [|c s IH]; intros cur; [reflexivity|].
  cbn [Py.rstrip]. destruct (Py.rstrip s) as [|b r] eqn:Er.
  - cbn [Py.split_go]. destruct (Py.isspace c) eqn:E.
    + destruct cur; rewrite <- IH; reflexivity.
    + cbn [Py.split_go]. rewrite E, <- IH. reflexivity.
  - cbn [Py.split_go]. destruct (Py.isspace c).
    + destruct cur; rewrite <- IH; reflexivity.
    + rewrite <- IH. reflexivity.
Qed.

Lemma split_strip s : Py.split (Py.strip s) = Py.split s.
Proof. unfold Py.split, Py.strip. rewrite split_go_rstrip. apply split_go_lstrip. Qed.

(** The rankings read from a record of the translated file are the fields of
    its second whitespace-separated token: joined again with "|" they give
    that token back, none of them contains "|" or whitespace, and the
    whitespace around the record and whatever follows the second token are
    ignored. *)
Theorem parseTranslation_fields rec r :
  parseTranslation rec = Ok r ->
  exists t0 t1 ts,
    Py.split rec = t0 :: t1 :: ts /\
    r = Py.split_sep "|"%char t1 /\
    String.concat "|" r = t1 /\
    Forall (fun x => lacks "|"%char x = true) r.
Proof.
  intros H. apply parseTranslation_Ok in H as (t0 & t1 & ts & Hs & ->).
  rewrite split_strip in Hs.
  pose proof (split_go_tokens rec EmptyString eq_refl) as Htok.
  unfold Py.split in Hs. rewrite Hs in Htok.
  apply Forall_cons in Htok as [_ Htok]. apply Forall_cons in Htok as [[_ H1] _].
  rewrite (strip_nospace _ H1).
  exists t0, t1, ts. split; [exact Hs|]. split; [reflexivity|]. split.
  - unfold Py.split_sep. apply (concat_split_sep_go "|"%char t1 EmptyString).
  - apply lacks_split_sep_go. reflexivity.
Qed.

Lemma parseTranslation_fields_witness :
  exists t0 t1 ts,
    Py.split (String.append "  r7" (String.append Example.tab "d__A|p__B  x y")) =
      t0 :: t1 :: ts /\
    ["d__A"; "p__B"] = Py.split_sep "|"%char t1 /\
    String.concat "|" ["d__A"; "p__B"] = t1 /\
    Forall (fun x => lacks "|"%char x = true) ["d__A"; "p__B"].
Proof.
  apply (parseTranslation_fields
           (String.append "  r7" (String.append Example.tab "d__A|p__B  x y"))
           ["d__A"; "p__B"]).
  reflexivity.
Defined.

(** ** Repeated observations *)

(** Updating a sample twice with the same rankings gives the same keys, and
    so the same distinct counts, as updating it once: a repeated observation
    only raises occurrence counts. *)
Theorem repeated_rankings_keep_keys (s : Sample) rankings k :
  dom (dictionaryOf k (updateDictionaries (updateDictionaries s rankings) rankings))
  = dom (dictionaryOf k (updateDictionaries s rankings)) /\
  dictCell (dictionaryOf k) (updateDictionaries (updateDictionaries s rankings) rankings)
  = dictCell (dictionaryOf k) (updateDictionaries s rankings).
Proof.
  assert (H : dom (dictionaryOf k
                     (updateDictionaries (updateDictionaries s rankings) rankings))
              = dom (dictionaryOf k (updateDictionaries s rankings))).
  { rewrite !dictionaryOf_updateDictionaries, !dom_updateDictionary. set_solver. }
  split; [exact H|].
  unfold dictCell. f_equal. rewrite <- !size_dom, H. reflexivity.
Qed.

(** ** The rarefaction curves *)

(** After the pass over the sample set of a positive rate, the numbers of
    reads and the distinct counts of every rank do not decrease from one
    sample to the next: every line of counts written is non-decreasing. *)
Theorem curves_nondecreasing draws u t q samples' i j (si sj : Sample) k :
  (0 < q)%Q ->
  generateRarefaction draws u t (initSamples q) = Ok samples' ->
  samples' !! i = Some si -> samples' !! j = Some sj ->
  i <= j ->
  numberOfReads si <= numberOfReads sj /\
  size (dictionaryOf k si) <= size (dictionaryOf k sj).
Proof.
  intros Hpos H Hi Hj Hij.
  destruct (decide (i = j)) as [->|Hne].
  { rewrite Hi in Hj. injection Hj as ->. lia. }
  rewrite generateRarefaction_spec in H.
  apply bind_Ok in H as (reads & _ & [= <-]).
  change (map ?f ?l) with (f <$> l) in Hi, Hj.
  rewrite list_lookup_fmap in Hi, Hj.
  destruct (initSamples q !! i) as [s0i|] eqn:Ei; [|discriminate].
  destruct (initSamples q !! j) as [s0j|] eqn:Ej; [|discriminate].
  simpl in Hi, Hj. injection Hi as <-. injection Hj as <-.
  apply lookup_initSamples in Ei as [_ ->].
  apply lookup_initSamples in Ej as [_ ->].
  assert (Hlt : (inject_Z (Z.of_nat (S i)) * q < inject_Z (Z.of_nat (S j)) * q)%Q).
  { apply Qmult_lt_compat_r; [assumption|]. rewrite <- Zlt_Qlt. lia. }
  rewrite !numberOfReads_includeReads. simpl. split.
  - pose proof (includedReads_mono _ _ reads Hlt). lia.
  - rewrite <- !size_dom, !dom_includeReads, !dictionaryOf_newSample, dom_empty_L.
    simpl. apply subseteq_size.
    pose proof (observed_mono k _ _ reads Hlt). set_solver.
Qed.

Lemma curves_nondecreasing_witness :
  numberOfReads (default (newSample 0) (st_samples Example.final !! 0)) <=
  numberOfReads (default (newSample 0) (st_samples Example.final !! 1)) /\
  size (dictionaryOf Phylum (default (newSample 0) (st_samples Example.final !! 0))) <=
  size (dictionaryOf Phylum (default (newSample 0) (st_samples Example.final !! 1))).
Proof.
  apply (curves_nondecreasing Example.draws Example.untranslated Example.translated
           (1 # 2) (st_samples Example.final) 0 1).
  - reflexivity.
  - reflexivity.
  - reflexivity.
  - reflexivity.
  - lia.
Defined.
